(** * Retrieval facade and transport adapter of the ClickUp MCP server

    A shallow embedding of
      - [src/tools/catalog.ts]   (the fallback tool catalog),
      - [src/tools/search.ts]    (the universal [search] tool),
      - [src/tools/fetch.ts]     (the universal [fetch] tool),
      - the SSE and HTTP Streamable transport server (Accept
        normalisation, [/mcp] session handling and the REST search
        aliases),
    followed by the properties of these functions.

    Conventions of the embedding.
      - A JavaScript string is a [string]; characters are ASCII, so
        [toLowerCase], [trim] and the class [\s] act on the ASCII letters
        and the ASCII white space only.
      - A JavaScript number is a [number]: [Some z] for the integer [z]
        and [None] for [NaN].  All numbers met by the code are integers
        (lengths, limits, time stamps in milliseconds); they are exact as
        long as they stay below 2^53.
      - [undefined] and [null] are [None] in an [option].
      - The calls to the task service are the only effects of the two
        tools; a tool is a [Prog], a tree whose nodes are those calls. *)

From Stdlib Require Import ZArith List String Ascii Bool Lia.
From Stdlib Require Import Permutation Sorted DecimalString DecimalPos.
From stdpp Require Import gmap strings.
Import ListNotations.

Local Open Scope Z_scope.

(* ================================================================== *)
(** * JavaScript primitives used by the sources                        *)
(* ================================================================== *)

Module JS.

(** [None] is [NaN]. *)
Definition number := option Z.

(** The line feed of the template strings. *)
Definition newline : string := String "010" EmptyString.

Definition isWhiteSpace (c : ascii) : bool :=
  let n := nat_of_ascii c in
  ((9 <=? n) && (n <=? 13))%nat || (n =? 32)%nat.

Definition isEmpty (s : string) : bool :=
  match s with EmptyString => true | String _ _ => false end.

(** Truthiness of a string and of a number. *)
Definition truthy (s : string) : bool := negb (isEmpty s).

Definition truthyNum (n : number) : bool :=
  match n with
  | None => false
  | Some z => negb (z =? 0)
  end.

(** [a || b] on strings that may be [undefined]. *)
Definition orStr (a : option string) (b : option string) : option string :=
  match a with
  | Some s => if truthy s then a else b
  | None => b
  end.

(** [a || b] on numbers. *)
Definition orNum (a : number) (b : number) : number :=
  if truthyNum a then a else b.

Fixpoint trimStart (s : string) : string :=
  match s with
  | EmptyString => EmptyString
  | String c s' => if isWhiteSpace c then trimStart s' else s
  end.

Fixpoint trimEnd (s : string) : string :=
  match s with
  | EmptyString => EmptyString
  | String c s' =>
      let r := trimEnd s' in
      if isWhiteSpace c && isEmpty r then EmptyString else String c r
  end.

Definition trim (s : string) : string := trimEnd (trimStart s).

Definition lowerChar (c : ascii) : ascii :=
  let n := nat_of_ascii c in
  if ((65 <=? n) && (n <=? 90))%nat then ascii_of_nat (n + 32) else c.

Fixpoint toLowerCase (s : string) : string :=
  match s with
  | EmptyString => EmptyString
  | String c s' => String (lowerChar c) (toLowerCase s')
  end.

(** [s.startsWith(p)] *)
Definition startsWith (s p : string) : bool := String.prefix p s.

(** [s.includes(sub)] *)
Fixpoint includes (s sub : string) : bool :=
  String.prefix sub s ||
  match s with
  | EmptyString => false
  | String _ s' => includes s' sub
  end.

(** [s.endsWith(suffix)] *)
Fixpoint endsWith (s suffix : string) : bool :=
  String.eqb s suffix ||
  match s with
  | EmptyString => false
  | String _ s' => endsWith s' suffix
  end.

(** [s.split(sep)] for a separator that is one character of the class
    [isSep].  The pieces between two separators are kept even when they
    are empty, as [split] does. *)
Fixpoint split (isSep : ascii -> bool) (s : string) : list string :=
  match s with
  | EmptyString => [EmptyString]
  | String c s' =>
      if isSep c then EmptyString :: split isSep s'
      else match split isSep s' with
           | p :: ps => String c p :: ps
           | [] => [String c EmptyString]
           end
  end.

(** [parts.join(sep)] *)
Fixpoint join (sep : string) (parts : list string) : string :=
  match parts with
  | [] => EmptyString
  | [p] => p
  | p :: ps => (p ++ sep ++ join sep ps)%string
  end.

Definition digitOf (c : ascii) : option Z :=
  let n := nat_of_ascii c in
  if ((48 <=? n) && (n <=? 57))%nat then Some (Z.of_nat (n - 48)) else None.

(** The digits read so far are [acc]; reading stops at the first
    character that is not a digit. *)
Fixpoint parseDigits (s : string) (acc : number) : number :=
  match s with
  | EmptyString => acc
  | String c s' =>
      match digitOf c with
      | Some d => parseDigits s' (Some (10 * default 0 acc + d))
      | None => acc
      end
  end.

(** [parseInt(s, 10)]: leading white space is skipped, a sign is read,
    then the longest run of digits; no digit at all gives [NaN].  The
    result is the integer read, which is the JavaScript number up to
    2^53; beyond, JavaScript rounds to the nearest double. *)
Definition parseInt (s : string) : number :=
  match trimStart s with
  | String "-"%char r => option_map Z.opp (parseDigits r None)
  | String "+"%char r => parseDigits r None
  | r => parseDigits r None
  end.

Definition hexDigitOf (c : ascii) : option Z :=
  let n := nat_of_ascii c in
  if ((48 <=? n) && (n <=? 57))%nat then Some (Z.of_nat (n - 48))
  else if ((97 <=? n) && (n <=? 102))%nat then Some (Z.of_nat (n - 87))
  else if ((65 <=? n) && (n <=? 70))%nat then Some (Z.of_nat (n - 55))
  else None.

Fixpoint parseHexDigits (s : string) (acc : number) : number :=
  match s with
  | EmptyString => acc
  | String c s' =>
      match hexDigitOf c with
      | Some d => parseHexDigits s' (Some (16 * default 0 acc + d))
      | None => acc
      end
  end.

(** The digits after the sign when no radix is given: a prefix [0x] or
    [0X] selects base 16. *)
Definition parseUnsigned (r : string) : number :=
  match r with
  | String "0"%char (String "x"%char h) => parseHexDigits h None
  | String "0"%char (String "X"%char h) => parseHexDigits h None
  | _ => parseDigits r None
  end.

(** [parseInt(s)], without a radix. *)
Definition parseIntAuto (s : string) : number :=
  match trimStart s with
  | String "-"%char r => option_map Z.opp (parseUnsigned r)
  | String "+"%char r => parseUnsigned r
  | r => parseUnsigned r
  end.

(** [String(n)] of [NaN] and of an integer of magnitude below 10^21,
    its decimal numeral.  From 10^21 on JavaScript prints the exponent
    notation ([1e+21]), which this definition does not give: statements
    about a numeric limit carry that bound. *)
Definition numberToString (n : number) : string :=
  match n with
  | None => "NaN"%string
  | Some z => NilEmpty.string_of_int (Z.to_int z)
  end.

Definition mathMin (a b : number) : number :=
  match a, b with
  | Some x, Some y => Some (Z.min x y)
  | _, _ => None
  end.

Definition mathMax (a b : number) : number :=
  match a, b with
  | Some x, Some y => Some (Z.max x y)
  | _, _ => None
  end.

Definition sub (a b : number) : number :=
  match a, b with
  | Some x, Some y => Some (x - y)
  | _, _ => None
  end.

(** [Math.floor(n * 0.6)] of a length [n].  The product is rounded to the
    nearest double; for a length it is the integer [3n/5] when 5 divides
    [n] and is at least 0.2 away from an integer otherwise, so that the
    floor is the integer quotient. *)
Definition floorSixTenths (n : nat) : Z := (Z.of_nat n * 6) / 10.

(** [l.slice(0, e)]: [NaN] counts as 0, a negative [e] counts from the
    end of the array. *)
Definition slice0 {A : Type} (l : list A) (e : number) : list A :=
  match e with
  | None => []
  | Some k =>
      if k <? 0 then firstn (Z.to_nat (Z.of_nat (length l) + k)) l
      else firstn (Z.to_nat k) l
  end.

(** [Array.from(new Set(l))]: the first occurrence of each string, in the
    order of insertion. *)
Fixpoint dedupe (seen : list string) (l : list string) : list string :=
  match l with
  | [] => []
  | x :: xs =>
      if existsb (String.eqb x) seen then dedupe seen xs
      else x :: dedupe (x :: seen) xs
  end.

(** [l.sort(cmp)].  The comparator returns a number; [sort] moves [a]
    behind [b] only when [cmp a b > 0] ([NaN] counts as 0), and it is
    stable.  For a comparator that is a total preorder every stable sort
    returns the same array; the insertion sort below is the model. *)
Section Sort.
Context {A : Type} (cmp : A -> A -> number).

Definition goesAfter (a b : A) : bool :=
  match cmp a b with
  | Some v => 0 <? v
  | None => false
  end.

Fixpoint insertSorted (a : A) (l : list A) : list A :=
  match l with
  | [] => [a]
  | b :: l' => if goesAfter a b then b :: insertSorted a l' else a :: l
  end.

Fixpoint sort (l : list A) : list A :=
  match l with
  | [] => []
  | a :: l' => insertSorted a (sort l')
  end.
End Sort.

End JS.


(* ================================================================== *)
(** * The fallback catalog ([src/tools/catalog.ts])                    *)
(* ================================================================== *)

Module Catalog.
Local Open Scope string_scope.

Record ToolCatalogEntry := {
  tool_id : string;           (* e.g. tool:get_workspace_hierarchy *)
  tool_name : string;         (* MCP tool name *)
  tool_title : string;        (* human-readable title *)
  tool_description : string;
  tool_url : string           (* reference doc URL *)
}.

Definition repoUrl : string :=
  "https://github.com/TaazKareem/clickup-mcp-server".

Definition mkEntry (i n t d : string) : ToolCatalogEntry :=
  {| tool_id := i; tool_name := n; tool_title := t;
     tool_description := d; tool_url := repoUrl |}.

Definition toolCatalog : list ToolCatalogEntry := [
    mkEntry "tool:search" "search" "Search"
      "Universal retrieval: search by keywords and return top-k IDs.";
    mkEntry "tool:fetch" "fetch" "Fetch"
      "Universal retrieval: fetch a single document by ID and return id, title, text, url, metadata.";
    mkEntry "tool:get_workspace_hierarchy" "get_workspace_hierarchy" "Get Workspace Hierarchy"
      "Gets complete workspace hierarchy (spaces, folders, lists).";
    mkEntry "tool:create_task" "create_task" "Create Task"
      "Creates a ClickUp task in a list.";
    mkEntry "tool:update_task" "update_task" "Update Task"
      "Updates an existing ClickUp task.";
    mkEntry "tool:move_task" "move_task" "Move Task"
      "Moves a ClickUp task to another list.";
    mkEntry "tool:duplicate_task" "duplicate_task" "Duplicate Task"
      "Duplicates a ClickUp task.";
    mkEntry "tool:get_task" "get_task" "Get Task"
      "Retrieves a ClickUp task by ID.";
    mkEntry "tool:delete_task" "delete_task" "Delete Task"
      "Deletes a ClickUp task by ID.";
    mkEntry "tool:get_task_comments" "get_task_comments" "Get Task Comments"
      "Gets comments for a ClickUp task.";
    mkEntry "tool:create_task_comment" "create_task_comment" "Create Task Comment"
      "Creates a new comment on a ClickUp task.";
    mkEntry "tool:attach_task_file" "attach_task_file" "Attach Task File"
      "Attaches a file to a ClickUp task.";
    mkEntry "tool:get_workspace_tasks" "get_workspace_tasks" "Get Workspace Tasks"
      "Retrieves tasks across the workspace with filters.";
    mkEntry "tool:get_task_time_entries" "get_task_time_entries" "Get Task Time Entries"
      "Gets time entries for a task.";
    mkEntry "tool:start_time_tracking" "start_time_tracking" "Start Time Tracking"
      "Starts time tracking for a task.";
    mkEntry "tool:stop_time_tracking" "stop_time_tracking" "Stop Time Tracking"
      "Stops time tracking for a task.";
    mkEntry "tool:add_time_entry" "add_time_entry" "Add Time Entry"
      "Adds a manual time entry to a task.";
    mkEntry "tool:delete_time_entry" "delete_time_entry" "Delete Time Entry"
      "Deletes a time entry from a task.";
    mkEntry "tool:get_current_time_entry" "get_current_time_entry" "Get Current Time Entry"
      "Gets currently running time entry.";
    mkEntry "tool:create_list" "create_list" "Create List"
      "Creates a list within a folder or space.";
    mkEntry "tool:create_list_in_folder" "create_list_in_folder" "Create List in Folder"
      "Creates a list within a folder.";
    mkEntry "tool:get_list" "get_list" "Get List"
      "Retrieves a list by ID.";
    mkEntry "tool:update_list" "update_list" "Update List"
      "Updates a list.";
    mkEntry "tool:delete_list" "delete_list" "Delete List"
      "Deletes a list.";
    mkEntry "tool:create_folder" "create_folder" "Create Folder"
      "Creates a folder within a space.";
    mkEntry "tool:get_folder" "get_folder" "Get Folder"
      "Retrieves a folder by ID.";
    mkEntry "tool:update_folder" "update_folder" "Update Folder"
      "Updates a folder.";
    mkEntry "tool:delete_folder" "delete_folder" "Delete Folder"
      "Deletes a folder.";
    mkEntry "tool:get_space_tags" "get_space_tags" "Get Space Tags"
      "Lists all tags in a space.";
    mkEntry "tool:add_tag_to_task" "add_tag_to_task" "Add Tag to Task"
      "Adds a tag to a task.";
    mkEntry "tool:remove_tag_from_task" "remove_tag_from_task" "Remove Tag from Task"
      "Removes a tag from a task.";
    mkEntry "tool:get_workspace_members" "get_workspace_members" "Get Workspace Members"
      "Returns all members in the workspace.";
    mkEntry "tool:find_member_by_name" "find_member_by_name" "Find Member by Name"
      "Finds a member by name or email.";
    mkEntry "tool:resolve_assignees" "resolve_assignees" "Resolve Assignees"
      "Resolves names/emails to user IDs.";
    mkEntry "tool:create_document" "create_document" "Create Document"
      "Creates a document in a space, folder, or list.";
    mkEntry "tool:get_document" "get_document" "Get Document"
      "Gets details of a ClickUp document.";
    mkEntry "tool:list_documents" "list_documents" "List Documents"
      "Lists documents under a parent container.";
    mkEntry "tool:list_document_pages" "list_document_pages" "List Document Pages"
      "Lists pages in a document.";
    mkEntry "tool:get_document_pages" "get_document_pages" "Get Document Pages"
      "Gets content of specific document pages.";
    mkEntry "tool:create_document_page" "create_document_page" "Create Document Page"
      "Creates a new page in a document.";
    mkEntry "tool:update_document_page" "update_document_page" "Update Document Page"
      "Updates a document page."
  ].

End Catalog.

(* ================================================================== *)
(** * The task service and the sponsor service (collaborators)         *)
(* ================================================================== *)

Module Backend.

(** A task summary as [getTaskSummaries] returns it; only the fields the
    tools read.  [sum_list_name] is [s?.list?.name]. *)
Record TaskSummary := {
  sum_id : string;
  sum_name : string;
  sum_status : option string;
  sum_list_name : option string;
  sum_url : option string;
  sum_date_updated : option string
}.

(** A full task as [getTask] returns it.  [task_status] is
    [task.status?.status], [task_list_name] is [task.list?.name]. *)
Record Task := {
  task_id : string;
  task_name : string;
  task_status : option string;
  task_list_name : option string;
  task_url : option string;
  task_text_content : option string;
  task_description : option string
}.

(** The filter handed to [getTaskSummaries]. *)
Record SummaryFilter := {
  include_closed : bool;
  include_archived_lists : bool;
  include_closed_lists : bool;
  subtasks : bool;
  detail_level : string
}.

(** What an awaited call does: it returns, or it throws an error with a
    message. *)
Inductive Outcome (A : Type) : Type :=
  | Returns (a : A)
  | Throws (message : string).
Arguments Returns {A} a.
Arguments Throws {A} message.

(** A tool is a tree of calls to the task service. *)
Inductive Prog (R : Type) : Type :=
  | Ret (r : R)
  | GetTaskSummaries (f : SummaryFilter)
      (k : Outcome (list TaskSummary) -> Prog R)
  | GetTask (id : string) (k : Outcome Task -> Prog R).
Arguments Ret {R} r.
Arguments GetTaskSummaries {R} f k.
Arguments GetTask {R} id k.

Fixpoint bind {A B : Type} (p : Prog A) (f : A -> Prog B) : Prog B :=
  match p with
  | Ret a => f a
  | GetTaskSummaries o k => GetTaskSummaries o (fun r => bind (k r) f)
  | GetTask i k => GetTask i (fun r => bind (k r) f)
  end.

(** The task service seen from a tool. *)
Record TaskService := {
  getTaskSummaries : SummaryFilter -> Outcome (list TaskSummary);
  getTask : string -> Outcome Task
}.

Inductive Call :=
  | CallSummaries (f : SummaryFilter)
  | CallTask (id : string).

(** Running a tool against a task service: its result and the calls it
    made, in order. *)
Fixpoint run {R : Type} (svc : TaskService) (p : Prog R) : R * list Call :=
  match p with
  | Ret r => (r, [])
  | GetTaskSummaries f k =>
      let (r, calls) := run svc (k (getTaskSummaries svc f)) in
      (r, CallSummaries f :: calls)
  | GetTask i k =>
      let (r, calls) := run svc (k (getTask svc i)) in
      (r, CallTask i :: calls)
  end.

(** What the Matching Engine, [isNameMatch] of [utils/resolver-utils],
    returns; its scores are taken to be integers. *)
Record MatchResult := {
  isMatch : bool;
  score : Z;
  reason : string
}.

End Backend.

(* ================================================================== *)
(** * The universal search tool ([src/tools/search.ts])                *)
(* ================================================================== *)

Module Search.
Import JS Catalog Backend.
Local Open Scope string_scope.
Local Open Scope Z_scope.

(** The class [[\/\_\-\s]] of the separators. *)
Definition isSeparator (c : ascii) : bool :=
  Ascii.eqb c "/" || Ascii.eqb c "_" || Ascii.eqb c "-" || isWhiteSpace c.

(** [s.split(/[\/\_\-\s]+/).filter(p => p.length > 0)].  A run of
    separators and a single separator differ by empty pieces only, which
    the filter drops. *)
Definition splitParts (s : string) : list string :=
  List.filter (fun p => (0 <? String.length p)%nat) (split isSeparator s).

Definition toolText (tool : ToolCatalogEntry) : string :=
  toLowerCase (tool_id tool ++ " " ++ tool_name tool ++ " " ++
               tool_title tool ++ " " ++ tool_description tool).

(** The inner loop over [toolParts], left by [break] at the first hit. *)
Fixpoint partFound (qPart : string) (toolParts : list string) : bool :=
  match toolParts with
  | [] => false
  | tPart :: rest =>
      if includes tPart qPart || includes qPart tPart then true
      else partFound qPart rest
  end.

(** The outer loop over [queryParts], carrying the counter [matches]. *)
Fixpoint countMatches (queryParts toolParts : list string) (matches : Z) : Z :=
  match queryParts with
  | [] => matches
  | qPart :: rest =>
      if (String.length qPart <? 2)%nat then countMatches rest toolParts matches
      else countMatches rest toolParts
             (if partFound qPart toolParts then matches + 1 else matches)
  end.

Definition toolCatalogMatches (tool : ToolCatalogEntry) (query : string) : bool :=
  let q := toLowerCase query in
  let toolText := toolText tool in
  if includes toolText q then true
  else
    let queryParts := splitParts q in
    let toolParts := splitParts toolText in
    let matches := countMatches queryParts toolParts 0 in
    (Z.max 1 (floorSixTenths (length queryParts)) <=? matches)%Z.

(** ** Arguments and results of [handleSearch] *)

(** The value under the key [limit]: a number or a string. *)
Inductive LimitValue :=
  | LimitNum (n : number)
  | LimitStr (s : string).

(** [params]: a bare string, or an object with the keys the handler
    reads (a key that is absent, [undefined] or [null] is [None]), or
    [undefined]. *)
Record SearchArgs := {
  arg_query : option string;
  arg_search : option string;
  arg_q : option string;
  arg_limit : option LimitValue
}.

Inductive SearchParams :=
  | ParamString (s : string)
  | ParamObject (o : SearchArgs)
  | ParamUndefined.

Record SearchResultItem := {
  res_id : string;
  res_title : string;
  res_text : option string;
  res_snippet : string;
  res_url : string;
  res_status : option string;
  res_list : option string
}.

(** The entries of [{ results: [...] }] handed to the sponsor service. *)
Record ResultRef := {
  ref_id : string;
  ref_title : string;
  ref_url : string
}.

Record StructuredContent := {
  sc_ids : list string;
  sc_objectIds : list string;
  sc_results : list SearchResultItem
}.

Record SearchResponse (Content : Type) := {
  ids : list string;
  objectIds : list string;
  results : list SearchResultItem;
  content : Content;
  structuredContent : StructuredContent;
  toolResult : list SearchResultItem
}.
Arguments ids {Content} _.
Arguments objectIds {Content} _.
Arguments results {Content} _.
Arguments content {Content} _.
Arguments structuredContent {Content} _.
Arguments toolResult {Content} _.

(** One entry of [ranked]. *)
Record Ranked := {
  r_t : TaskSummary;
  r_score : Z;
  r_matched : bool;
  r_reason : string
}.

Definition stringOfLimit (v : LimitValue) : string :=
  match v with
  | LimitNum n => numberToString n
  | LimitStr s => s
  end.

(** [typeof params === 'string' ? params
      : (params?.query ?? params?.search ?? params?.q ?? '')] *)
Definition queryVal (params : SearchParams) : string :=
  match params with
  | ParamString s => s
  | ParamObject o =>
      match arg_query o, arg_search o, arg_q o with
      | Some v, _, _ => v
      | None, Some v, _ => v
      | None, None, Some v => v
      | None, None, None => ""
      end
  | ParamUndefined => ""
  end.

(** [(params && typeof params === 'object' && 'limit' in params)
      ? params.limit : 10], followed by [rawLimit ?? 10]. *)
Definition rawLimit (params : SearchParams) : LimitValue :=
  match params with
  | ParamObject o => default (LimitNum (Some 10)) (arg_limit o)
  | _ => LimitNum (Some 10)
  end.

(** [Math.max(1, Math.min(parseInt(String(rawLimit ?? 10), 10), 50))] *)
Definition effectiveLimit (params : SearchParams) : number :=
  mathMax (Some 1) (mathMin (parseInt (stringOfLimit (rawLimit params))) (Some 50)).

(** [t?.date_updated ? parseInt(t.date_updated, 10) : 0] *)
Definition updatedAt (t : TaskSummary) : number :=
  match sum_date_updated t with
  | Some d => if truthy d then parseInt d else Some 0
  | None => Some 0
  end.

(** The comparator of [ranked]. *)
Definition compareRanked (a b : Ranked) : number :=
  if negb (r_score b =? r_score a) then Some (r_score b - r_score a)
  else sub (updatedAt (r_t b)) (updatedAt (r_t a)).

(** The comparator of the recency fallback. *)
Definition compareRecent (a b : TaskSummary) : number :=
  sub (updatedAt b) (updatedAt a).

Definition summaryFilter : SummaryFilter :=
  {| include_closed := true; include_archived_lists := true;
     include_closed_lists := true; subtasks := true;
     detail_level := "summary" |}.

(** The structured result pushed for a task summary. *)
Definition taskResult (s : TaskSummary) : SearchResultItem :=
  let listName := default "Unknown list" (sum_list_name s) in
  let status := default "unknown" (sum_status s) in
  let url := default "" (sum_url s) in
  {| res_id := sum_id s;
     res_title := sum_name s;
     res_text := Some (sum_name s ++ (if truthy url then newline ++ url else ""));
     res_snippet := "Status: " ++ status ++ "; List: " ++ listName;
     res_url := url;
     res_status := Some status;
     res_list := Some listName |}.

(** The catalog entry of the baseline and of the error path:
    [{ id, title, snippet: description, url }]. *)
Definition toolBrief (t : ToolCatalogEntry) : SearchResultItem :=
  {| res_id := tool_id t; res_title := tool_title t; res_text := None;
     res_snippet := tool_description t; res_url := tool_url t;
     res_status := None; res_list := None |}.

(** The catalog entry appended by the recency fallback. *)
Definition toolResult' (t : ToolCatalogEntry) : SearchResultItem :=
  {| res_id := tool_id t; res_title := tool_title t;
     res_text := Some (tool_title t ++ newline ++ newline ++ tool_description t
                       ++ newline ++ newline ++ "Reference: " ++ tool_url t);
     res_snippet := tool_description t; res_url := tool_url t;
     res_status := None; res_list := None |}.

Definition refOf (r : SearchResultItem) : ResultRef :=
  {| ref_id := res_id r; ref_title := res_title r; ref_url := res_url r |}.

Section Handler.
(** [sponsorService.createResponse(data).content], [isNameMatch] and
    [config.openAiToolIndexFallback] come from modules outside the
    tool. *)
Context {Content : Type}.
Variable createResponse : list ResultRef -> Content.
Variable isNameMatch : string -> string -> MatchResult.
Variable openAiToolIndexFallback : bool.

(** The response object built in every branch from the ids and the
    results. *)
Definition respond (idList : list string) (items : list SearchResultItem)
  : SearchResponse Content :=
  {| ids := idList;
     objectIds := idList;
     results := items;
     content := createResponse (map refOf items);
     structuredContent :=
       {| sc_ids := idList; sc_objectIds := idList; sc_results := items |};
     toolResult := items |}.

(** The branch [if (!query)]. *)
Definition catalogBaseline (limit : number) : SearchResponse Content :=
  let toolMatches := map toolBrief (slice0 toolCatalog limit) in
  respond (map res_id toolMatches) toolMatches.

Definition ranked (query : string) (limit : number)
    (summaries : list TaskSummary) : list Ranked :=
  slice0
    (sort compareRanked
       (List.filter r_matched
          (map (fun t =>
                  let m := isNameMatch (sum_name t) query in
                  {| r_t := t; r_score := score m;
                     r_matched := isMatch m; r_reason := reason m |})
               summaries)))
    limit.

(** The branch [if (ranked.length === 0)]. *)
Definition recentFallback (query : string) (limit : number)
    (summaries : list TaskSummary) : SearchResponse Content :=
  let fallback := slice0 (sort compareRecent summaries) limit in
  let structuredResults := map taskResult fallback in
  let objectIds := map sum_id fallback in
  let '(structuredResults, objectIds) :=
    if openAiToolIndexFallback then
      let toolMatches :=
        List.filter (fun t => toolCatalogMatches t query) toolCatalog in
      let room :=
        mathMax (Some 0)
          (sub limit (Some (Z.of_nat (length structuredResults)))) in
      let added := slice0 toolMatches room in
      ((structuredResults ++ map toolResult' added)%list,
       (objectIds ++ map tool_id added)%list)
    else (structuredResults, objectIds) in
  (* Enforce limit *)
  let limitedResults := slice0 structuredResults limit in
  let limitedIds := slice0 objectIds limit in
  respond limitedIds limitedResults.

Definition rankedResponse (rs : list Ranked) : SearchResponse Content :=
  let structuredResults := map (fun r => taskResult (r_t r)) rs in
  let objectIds := map (fun r => sum_id (r_t r)) rs in
  respond objectIds structuredResults.

(** [(params?.query || '').toString().trim()] of the [catch] block. *)
Definition searchQuery (params : SearchParams) : string :=
  match params with
  | ParamObject o => trim (default "" (orStr (arg_query o) (Some "")))
  | _ => ""
  end.

(** The [catch] block. *)
Definition onSearchError (params : SearchParams) : SearchResponse Content :=
  if openAiToolIndexFallback then
    let toolMatches :=
      map toolBrief
        (slice0
           (List.filter (fun t => toolCatalogMatches t (searchQuery params))
              toolCatalog)
           (Some 10)) in
    respond (map res_id toolMatches) toolMatches
  else respond [] [].

Definition handleSearch (params : SearchParams)
  : Prog (SearchResponse Content) :=
  let query := trim (queryVal params) in
  let limit := effectiveLimit params in
  if negb (truthy query) then Ret (catalogBaseline limit)
  else
    GetTaskSummaries summaryFilter (fun summariesResp =>
      match summariesResp with
      | Throws _ => Ret (onSearchError params)
      | Returns summaries =>
          let ranked := ranked query limit summaries in
          if (length ranked =? 0)%nat
          then Ret (recentFallback query limit summaries)
          else Ret (rankedResponse ranked)
      end).
End Handler.

End Search.

(* ================================================================== *)
(** * The universal fetch tool ([src/tools/fetch.ts])                  *)
(* ================================================================== *)

Module Fetch.
Import JS Catalog Backend.
Local Open Scope string_scope.

(** [params]: a bare string, an object whose key [id] may be missing, or
    [undefined]. *)
Inductive FetchParams :=
  | IdString (s : string)
  | IdObject (id : option string)
  | IdUndefined.

(** A metadata object: its keys in order, a value may be [undefined]. *)
Definition Metadata := list (string * option string).

(** [raw]: the record the document was made from. *)
Inductive Raw :=
  | RawTool (entry : ToolCatalogEntry)
  | RawTask (task : Task).

(** The document handed to [sponsorService.createResponse] and repeated
    under [structuredContent]. *)
Record DocumentCore := {
  core_id : string;
  core_title : string;
  core_text : string;
  core_url : string;
  core_metadata : Metadata
}.

Record FetchDocument (Content : Type) := {
  doc_id : string;
  doc_title : string;
  doc_text : string;
  doc_url : string;
  doc_metadata : Metadata;
  doc_raw : Raw;
  doc_content : Content;
  doc_structuredContent : DocumentCore
}.
Arguments doc_id {Content} _.
Arguments doc_title {Content} _.
Arguments doc_text {Content} _.
Arguments doc_url {Content} _.
Arguments doc_metadata {Content} _.
Arguments doc_raw {Content} _.
Arguments doc_content {Content} _.
Arguments doc_structuredContent {Content} _.

(** What [handleFetch] returns: a document, or the object made by
    [sponsorService.createErrorResponse], which has neither [id] nor
    [text]. *)
Inductive FetchResult (Content Failure : Type) : Type :=
  | Document (d : FetchDocument Content)
  | Failed (e : Failure).
Arguments Document {Content Failure} d.
Arguments Failed {Content Failure} e.

(** [if (c) textParts.push(x)] *)
Definition pushIf (c : bool) (x : string) (textParts : list string) : list string :=
  if c then (textParts ++ [x])%list else textParts.

Section Handler.
Context {Content Failure : Type}.
Variable createResponse : DocumentCore -> Content.
Variable createErrorResponse : string -> option string -> Failure.

Definition document (core : DocumentCore) (raw : Raw) : FetchDocument Content :=
  {| doc_id := core_id core;
     doc_title := core_title core;
     doc_text := core_text core;
     doc_url := core_url core;
     doc_metadata := core_metadata core;
     doc_raw := raw;
     doc_content := createResponse core;
     doc_structuredContent := core |}.

(** The branch [if (id.startsWith('tool:'))]. *)
Definition fetchTool (id : string) : FetchResult Content Failure :=
  match List.find (fun e => String.eqb (tool_id e) id) toolCatalog with
  | None => Failed (createErrorResponse ("Unknown tool id: " ++ id) None)
  | Some entry =>
      let text := tool_title entry ++ newline ++ newline ++
                  tool_description entry ++ newline ++ newline ++
                  "Reference: " ++ tool_url entry in
      Document
        (document
           {| core_id := tool_id entry;
              core_title := tool_title entry;
              core_text := text;
              core_url := tool_url entry;
              core_metadata :=
                [("name", Some (tool_name entry)); ("category", Some "tool")] |}
           (RawTool entry))
  end.

(** The transformation of a task into a document. *)
Definition taskDocument (task : Task) : FetchDocument Content :=
  let status := default "unknown" (task_status task) in
  let listName := default "" (task_list_name task) in
  let url := default "" (orStr (task_url task) (Some "")) in
  let description :=
    match task_text_content task with
    | Some d => d
    | None => default "" (task_description task)
    end in
  let textParts := [] in
  let textParts := pushIf (truthy description) description textParts in
  let textParts := pushIf (truthy status) ("Status: " ++ status) textParts in
  let textParts := pushIf (truthy listName) ("List: " ++ listName) textParts in
  let textParts := pushIf (truthy url) url textParts in
  let text := join newline textParts in
  let metadata :=
    [("status", Some status);
     ("list", if truthy listName then Some listName else None)] in
  document
    {| core_id := task_id task;
       core_title := task_name task;
       core_text := text;
       core_url := url;
       core_metadata := metadata |}
    (RawTask task).

(** [typeof params === 'string' ? params
      : (params?.id ? String(params.id) : undefined)] *)
Definition idOf (params : FetchParams) : option string :=
  match params with
  | IdString s => Some s
  | IdObject (Some i) => if truthy i then Some i else None
  | IdObject None => None
  | IdUndefined => None
  end.

Definition handleFetch (params : FetchParams)
  : Prog (FetchResult Content Failure) :=
  match idOf params with
  | None => Ret (Failed (createErrorResponse "Missing required parameter: id" None))
  | Some id =>
      if negb (truthy id)
      then Ret (Failed (createErrorResponse "Missing required parameter: id" None))
      else if startsWith id "tool:" then Ret (fetchTool id)
      else
        GetTask id (fun r =>
          match r with
          | Returns task => Ret (Document (taskDocument task))
          | Throws message =>
              Ret (Failed (createErrorResponse "Fetch failed" (Some message)))
          end)
  end.
End Handler.

End Fetch.

(* ================================================================== *)
(** * The SSE and HTTP Streamable transport server                     *)
(* ================================================================== *)

Module Server.
Import JS Catalog Backend.
Local Open Scope string_scope.
Local Open Scope Z_scope.

(** ** Accept normalisation *)

Definition isComma (c : ascii) : bool := Ascii.eqb c ",".

(** [original.split(',').map(s => s.trim()).filter(Boolean)] *)
Definition acceptParts (original : string) : list string :=
  List.filter truthy (map trim (split isComma original)).

(** The middleware in front of the routes: the value of the [accept]
    header after it, for a request to [path] that came with the header
    [accept]. *)
Definition normalizeAccept (path : string) (accept : option string) : option string :=
  if String.eqb path "/mcp" then
    let original := default "" (orStr accept (Some "")) in
    let parts := acceptParts original in
    let changed := false in
    let '(parts, changed) :=
      if negb (existsb (fun p => includes p "application/json") parts)
      then ((parts ++ ["application/json"])%list, true)
      else (parts, changed) in
    let '(parts, changed) :=
      if negb (existsb (fun p => includes p "text/event-stream") parts)
      then ((parts ++ ["text/event-stream"])%list, true)
      else (parts, changed) in
    if changed then Some (join ", " (dedupe [] parts)) else accept
  else accept.

(** ** Replies *)

(** An item of a REST search reply.  *)
Record RestItem := {
  item_id : string;
  item_title : string;
  item_text : string;
  item_url : string;
  item_snippet : string;
  item_source_url : string;
  item_metadata : Fetch.Metadata
}.

(** An item before it is normalised: the keys the normalisation reads. *)
Record LooseItem := {
  loose_id : string;
  loose_title : string;
  loose_text : option string;
  loose_snippet : option string;
  loose_description : option string;
  loose_url : option string;
  loose_status : option string;
  loose_list : option string;
  loose_category : option string
}.

Inductive Body :=
  | SearchResults (items : list RestItem)
  | FetchedDocument (id content : string) (metadata : Fetch.Metadata)
  | PlainError (error : string)
  | RpcError (code : Z) (message : string).

(** What a route does with a request: it sends a JSON reply, it hands
    the request to a transport, it opens a new session, or it lets an
    exception escape. *)
Inductive Reply (Transport : Type) : Type :=
  | Json (status : Z) (body : Body)
  | HandleRequest (transport : Transport)
  | NewSession
  | Uncaught (error : string).
Arguments Json {Transport} status body.
Arguments HandleRequest {Transport} transport.
Arguments NewSession {Transport}.
Arguments Uncaught {Transport} error.

(** The item synthesised from a catalog entry. *)
Definition catalogItem (item : ToolCatalogEntry) : RestItem :=
  {| item_id := tool_id item;
     item_title := tool_title item;
     item_text := tool_title item ++ newline ++ newline ++
                  tool_description item ++ newline ++ newline ++
                  "Reference: " ++ tool_url item;
     item_url := tool_url item;
     item_snippet := tool_description item;
     item_source_url := tool_url item;
     item_metadata :=
       [("name", Some (tool_name item)); ("category", Some "tool")] |}.

Definition looseOfResult (r : Search.SearchResultItem) : LooseItem :=
  {| loose_id := Search.res_id r;
     loose_title := Search.res_title r;
     loose_text := Search.res_text r;
     loose_snippet := Some (Search.res_snippet r);
     loose_description := None;
     loose_url := Some (Search.res_url r);
     loose_status := Search.res_status r;
     loose_list := Search.res_list r;
     loose_category := None |}.

Definition looseOfRest (r : RestItem) : LooseItem :=
  {| loose_id := item_id r;
     loose_title := item_title r;
     loose_text := Some (item_text r);
     loose_snippet := Some (item_snippet r);
     loose_description := None;
     loose_url := Some (item_url r);
     loose_status := None;
     loose_list := None;
     loose_category := None |}.

(** The normalisation [items.map(item => ({ id, title, text: item.text ||
    item.snippet || item.description || '', ... }))]. *)
Definition normalizeItem (item : LooseItem) : RestItem :=
  let url := default "" (orStr (loose_url item) (Some "")) in
  let snippet :=
    default "" (orStr (loose_snippet item)
                  (orStr (loose_description item) (Some ""))) in
  {| item_id := loose_id item;
     item_title := loose_title item;
     item_text :=
       default "" (orStr (loose_text item)
                     (orStr (loose_snippet item)
                        (orStr (loose_description item) (Some ""))));
     item_url := url;
     item_snippet := snippet;
     item_source_url := url;
     item_metadata :=
       [("status", loose_status item); ("list", loose_list item);
        ("category", loose_category item)] |}.

(** The query string of a search request and the headers and paths read
    by the routes. *)
Record SearchQuery := {
  qs_q : option string;
  qs_query : option string;
  qs_limit : option string;
  qs_top_k : option string;
  qs_k : option string;
  qs_n : option string
}.

Record Request := {
  x_original_uri : option string;
  x_rewrite_url : option string;
  x_forwarded_uri : option string;
  x_forwarded_url : option string;
  originalUrl : string;
  url : string;
  path : string;
  mcp_session_id : option string;
  query : SearchQuery;
  query_id : option string
}.

(** ** The table of the streamable sessions

    [transports.streamable] is an object literal used as a map.  Reading
    [transports.streamable[sessionId]] finds the transport stored under
    that key or, for a key that is not stored on the object, the member
    of [Object.prototype] of that name. *)
Definition objectPrototype : list string :=
  [ "constructor"; "__defineGetter__"; "__defineSetter__"; "hasOwnProperty";
    "__lookupGetter__"; "__lookupSetter__"; "isPrototypeOf";
    "propertyIsEnumerable"; "toString"; "valueOf"; "__proto__";
    "toLocaleString" ].

Inductive Member (Transport : Type) : Type :=
  | Stored (transport : Transport)
  | Inherited (name : string).
Arguments Stored {Transport} transport.
Arguments Inherited {Transport} name.

Section Routes.
Context {Transport Content Failure : Type}.
Variable createResponse : list Search.ResultRef -> Content.
Variable createDocument : Fetch.DocumentCore -> Content.
Variable createErrorResponse : string -> option string -> Failure.
Variable isNameMatch : string -> string -> MatchResult.
Variable openAiToolIndexFallback : bool.

(** [streamable[sessionId]]; every member found is truthy. *)
Definition getMember (streamable : gmap string Transport) (sessionId : string)
  : option (Member Transport) :=
  match streamable !! sessionId with
  | Some t => Some (Stored t)
  | None =>
      if existsb (String.eqb sessionId) objectPrototype
      then Some (Inherited sessionId)
      else None
  end.

(** [onsessioninitialized] and [transport.onclose]. *)
Definition sessionInitialized (sessionId : string) (transport : Transport)
    (streamable : gmap string Transport) : gmap string Transport :=
  <[sessionId := transport]> streamable.

Definition sessionClosed (sessionId : option string)
    (streamable : gmap string Transport) : gmap string Transport :=
  match sessionId with
  | Some sid => if truthy sid then delete sid streamable else streamable
  | None => streamable
  end.

(** [await transport.handleRequest(...)]: a member inherited from
    [Object.prototype] has no method [handleRequest], the call throws a
    [TypeError]. *)
Definition callHandleRequest (m : Member Transport) : Outcome Transport :=
  match m with
  | Stored t => Returns t
  | Inherited _ => Throws "transport.handleRequest is not a function"
  end.

(** [app.post('/mcp', ...)] *)
Definition postMcp (streamable : gmap string Transport) (req : Request)
  : Reply Transport :=
  let sessionId := mcp_session_id req in
  let found :=
    match sessionId with
    | Some sid => if truthy sid then getMember streamable sid else None
    | None => None
    end in
  match found with
  | Some transport =>
      match callHandleRequest transport with
      | Returns t => HandleRequest t
      | Throws _ => Json 500 (RpcError (-32603) "Internal server error")
      end
  | None =>
      if negb (match sessionId with Some sid => truthy sid | None => false end)
      then NewSession
      else Json 400 (RpcError (-32000) "Bad Request: No valid session ID provided")
  end.

(** [Math.min(parseInt(rawLimit) || 10, 50)] *)
Definition restLimit (rawLimit : string) : number :=
  mathMin (orNum (parseIntAuto rawLimit) (Some 10)) (Some 50).

Definition searchParams (query : string) (limit : number) : Search.SearchParams :=
  Search.ParamObject
    {| Search.arg_query := Some query; Search.arg_search := None;
       Search.arg_q := None; Search.arg_limit := Some (Search.LimitNum limit) |}.

Definition callSearch (query : string) (limit : number)
  : Prog (Search.SearchResponse Content) :=
  Search.handleSearch createResponse isNameMatch openAiToolIndexFallback
    (searchParams query limit).

(** [app.get('/search', ...)] *)
Definition getSearch (req : Request) : Prog (Reply Transport) :=
  let qs := query req in
  let query := default "" (orStr (qs_q qs) (orStr (qs_query qs) (Some ""))) in
  let rawLimit :=
    default "10"
      (orStr (qs_limit qs)
         (orStr (qs_top_k qs) (orStr (qs_k qs) (orStr (qs_n qs) (Some "10"))))) in
  let limit := restLimit rawLimit in
  if negb (truthy (trim query)) then
    Ret (Json 200 (SearchResults (map catalogItem (slice0 toolCatalog limit))))
  else
    bind (callSearch query limit) (fun result =>
      let items := map looseOfResult (Search.results result) in
      let items :=
        if (length items =? 0)%nat
        then map looseOfRest (map catalogItem (slice0 toolCatalog limit))
        else items in
      if (0 <? length items)%nat
      then Ret (Json 200 (SearchResults (map normalizeItem items)))
      else Ret (Json 200 (SearchResults []))).

(** The forwarded path of [handleSessionRequest]. *)
Definition effectivePath (req : Request) : string :=
  let forwardedUri :=
    orStr (x_original_uri req)
      (orStr (x_rewrite_url req)
         (orStr (x_forwarded_uri req) (x_forwarded_url req))) in
  default ""
    (orStr forwardedUri
       (orStr (Some (originalUrl req))
          (orStr (Some (url req)) (Some (path req))))).

Definition yieldsSearch (req : Request) : bool :=
  let p := effectivePath req in
  truthy p && (endsWith p "/mcp/search" || includes p "/mcp/search").

Definition yieldsFetch (req : Request) : bool :=
  let p := effectivePath req in
  truthy p && (endsWith p "/mcp/fetch" || includes p "/mcp/fetch").

(** The REST reply served from [handleSessionRequest] for a forwarded
    [/mcp/search]. *)
Definition forwardedSearch (req : Request) : Prog (Reply Transport) :=
  let qs := query req in
  let query := default "" (orStr (qs_q qs) (orStr (qs_query qs) (Some ""))) in
  let limit := restLimit (default "10" (orStr (qs_limit qs) (Some "10"))) in
  if negb (truthy (trim query)) then
    Ret (Json 200 (SearchResults (map catalogItem (slice0 toolCatalog limit))))
  else
    bind (callSearch query limit) (fun result =>
      Ret (Json 200
             (SearchResults
                (map normalizeItem (map looseOfResult (Search.results result)))))).

(** The REST reply served from [handleSessionRequest] for a forwarded
    [/mcp/fetch]. *)
Definition forwardedFetch (req : Request) : Prog (Reply Transport) :=
  match query_id req with
  | None => Ret (Json 400 (PlainError "Missing required parameter: id"))
  | Some id =>
      if negb (truthy id)
      then Ret (Json 400 (PlainError "Missing required parameter: id"))
      else
        bind (Fetch.handleFetch createDocument createErrorResponse
                (Fetch.IdObject (Some id)))
          (fun result =>
             match result with
             | Fetch.Document d =>
                 Ret (Json 200
                        (FetchedDocument (Fetch.doc_id d) (Fetch.doc_text d)
                           ([("title", Some (Fetch.doc_title d));
                             ("url", Some (Fetch.doc_url d))]
                            ++ Fetch.doc_metadata d)%list))
             | Fetch.Failed _ => Ret (Json 404 (PlainError "Document not found"))
             end)
  end.

(** [handleSessionRequest], the handler of [GET /mcp] and
    [DELETE /mcp]. *)
Definition handleSessionRequest (streamable : gmap string Transport)
    (req : Request) : Prog (Reply Transport) :=
  if yieldsSearch req then forwardedSearch req
  else if yieldsFetch req then forwardedFetch req
  else
    let sessionId := mcp_session_id req in
    let found :=
      match sessionId with
      | Some sid => if truthy sid then getMember streamable sid else None
      | None => None
      end in
    match found with
    | None =>
        Ret (Json 400
               (RpcError (-32000) "Bad Request: Mcp-Session-Id header is required"))
    | Some transport =>
        match callHandleRequest transport with
        | Returns t => Ret (HandleRequest t)
        | Throws e => Ret (Uncaught e)
        end
    end.
End Routes.

End Server.

(* ================================================================== *)
(** * The vocabulary of the properties                                 *)
(* ================================================================== *)

Module Spec.
Import JS Catalog Backend.

(** A query token [qPart] is contained in, or contains, some token of
    the candidate. *)
Definition tokenHit (toolParts : list string) (qPart : string) : bool :=
  existsb (fun tPart => includes tPart qPart || includes qPart tPart) toolParts.

(** The significant tokens: those of length at least 2. *)
Definition significant (queryParts : list string) : list string :=
  List.filter (fun p => (2 <=? String.length p)%nat) queryParts.

(** The match policy of the catalog in the words of the specification:
    the lowercased query is a substring of the combined text, or the
    significant query tokens that hit a token of the candidate number at
    least 60% of the significant tokens, and at least one. *)
Definition claimedCatalogMatch (tool : ToolCatalogEntry) (query : string) : bool :=
  let q := toLowerCase query in
  let text := Search.toolText tool in
  let sig := significant (Search.splitParts q) in
  let hits := List.filter (tokenHit (Search.splitParts text)) sig in
  includes text q ||
  ((1 <=? length hits)%nat && (6 * length sig <=? 10 * length hits)%nat).

(** The integer a text denotes when it is a decimal numeral: digits
    only, after an optional minus sign.  The text is read by the
    Standard Library, not by the handler. *)
Definition numeral (s : string) : option Z :=
  option_map Z.of_int (NilZero.int_of_string s).

(** The date written in a summary, read as a number: 0 for a summary
    without [date_updated] or with an empty one, nothing when the text
    is not a numeral. *)
Definition stamp (t : TaskSummary) : option Z :=
  match sum_date_updated t with
  | None => Some 0
  | Some EmptyString => Some 0
  | Some s => numeral s
  end.

(** The largest integer up to which a JavaScript number holds every
    integer exactly: 2^53 - 1. *)
Definition maxSafeInteger : Z := 9007199254740991.

(** The date of a summary, when present, is a numeral within the exact
    range.  With any other text the comparator of the handler works on
    [NaN] or on rounded numbers. *)
Definition numericDate (t : TaskSummary) : bool :=
  match stamp t with
  | Some n => Z.abs n <=? maxSafeInteger
  | None => false
  end.

(** The time stamp of a summary, 0 when it has none. *)
Definition updated (t : TaskSummary) : Z := default 0 (stamp t).

(** A limit given as a number is below 10^21 in magnitude: up to there
    [String] prints an integer as its decimal numeral, from there on in
    the exponent notation, which is not embedded. *)
Definition plainLimit (params : Search.SearchParams) : bool :=
  match Search.rawLimit params with
  | Search.LimitNum (Some n) => Z.abs n <? 10 ^ 21
  | _ => true
  end.

(** [a] is at least as recent as [b]. *)
Definition recentBefore (a b : TaskSummary) : Prop := updated b <= updated a.

Section Ranking.
Variable isNameMatch : string -> string -> MatchResult.
Variable query : string.

(** The entry of [ranked] made from a summary. *)
Definition rank (t : TaskSummary) : Search.Ranked :=
  let m := isNameMatch (sum_name t) query in
  {| Search.r_t := t; Search.r_score := score m;
     Search.r_matched := isMatch m; Search.r_reason := reason m |}.

Definition matched (t : TaskSummary) : bool :=
  isMatch (isNameMatch (sum_name t) query).

Definition scoreOf (t : TaskSummary) : Z :=
  score (isNameMatch (sum_name t) query).

(** [a] ranks before [b]: a strictly higher score, or the same score
    and a time stamp that is not older. *)
Definition rankedBefore (a b : TaskSummary) : Prop :=
  scoreOf b < scoreOf a \/ (scoreOf a = scoreOf b /\ updated b <= updated a).
End Ranking.

(** The description or body, the status, the list and the url of a
    task as its document shows them. *)
Definition bodyOf (task : Task) : string :=
  default (default EmptyString (task_description task)) (task_text_content task).

Definition statusOf (task : Task) : string :=
  default "unknown"%string (task_status task).

Definition listOf (task : Task) : string :=
  default EmptyString (task_list_name task).

Definition urlOf (task : Task) : string :=
  default EmptyString (task_url task).

(** A task service whose calls all throw. *)
Definition unavailable (message : string) : TaskService :=
  {| getTaskSummaries := fun _ => Throws message;
     getTask := fun _ => Throws message |}.

(** A task service that answers with the given summaries and knows no
    task. *)
Definition answering (summaries : list TaskSummary) : TaskService :=
  {| getTaskSummaries := fun _ => Returns summaries;
     getTask := fun _ => Throws "Task not found"%string |}.

(** The tokens of an [accept] header. *)
Definition acceptTokens (accept : option string) : list string :=
  Server.acceptParts (default EmptyString accept).

(** The header has the media type as one of its tokens, as the
    specification words it. *)
Definition hasToken (accept : option string) (mediaType : string) : bool :=
  existsb (String.eqb mediaType) (acceptTokens accept).

(** A request to [/mcp] with a session header and nothing else, and a
    request to [/search] with a query string. *)
Definition noQuery : Server.SearchQuery :=
  {| Server.qs_q := None; Server.qs_query := None; Server.qs_limit := None;
     Server.qs_top_k := None; Server.qs_k := None; Server.qs_n := None |}.

Definition mcpRequest (sessionId : option string) : Server.Request :=
  {| Server.x_original_uri := None; Server.x_rewrite_url := None;
     Server.x_forwarded_uri := None; Server.x_forwarded_url := None;
     Server.originalUrl := "/mcp"; Server.url := "/mcp"; Server.path := "/mcp";
     Server.mcp_session_id := sessionId;
     Server.query := noQuery; Server.query_id := None |}.

Definition searchRequest (target : string) (qs : Server.SearchQuery) : Server.Request :=
  {| Server.x_original_uri := None; Server.x_rewrite_url := None;
     Server.x_forwarded_uri := None; Server.x_forwarded_url := None;
     Server.originalUrl := target; Server.url := target; Server.path := "/search";
     Server.mcp_session_id := None;
     Server.query := qs; Server.query_id := None |}.

(** No character of [s] is in the class [f]. *)
Fixpoint noneOf (f : ascii -> bool) (s : string) : bool :=
  match s with
  | EmptyString => true
  | String c s' => negb (f c) && noneOf f s'
  end.

(** A well-formed token of an [accept] header: not empty, without a
    comma, without white space at either end. *)
Definition acceptToken (p : string) : bool :=
  truthy p && noneOf Server.isComma p && String.eqb (trim p) p.

End Spec.

(* ================================================================== *)
(** * Sample data                                                      *)
(* ================================================================== *)

Module Sample.
Import JS Catalog Backend.
Local Open Scope string_scope.

(** A matching engine: the lowercased name equals, or includes, the
    lowercased query. *)
Definition sampleMatch (name query : string) : MatchResult :=
  let n := toLowerCase name in
  let q := toLowerCase query in
  if String.eqb n q then {| isMatch := true; score := 100; reason := "exact" |}
  else if includes n q then {| isMatch := true; score := 80; reason := "contains" |}
  else {| isMatch := false; score := 0; reason := "none" |}.

Definition sampleSummaries : list TaskSummary :=
  [ {| sum_id := "t1"; sum_name := "Invoice #1"; sum_status := Some "open";
       sum_list_name := Some "Billing";
       sum_url := Some "https://app.clickup.com/t/t1";
       sum_date_updated := Some "1700000000000" |};
    {| sum_id := "t2"; sum_name := "Send invoice to client";
       sum_status := Some "in progress"; sum_list_name := Some "Billing";
       sum_url := Some "https://app.clickup.com/t/t2";
       sum_date_updated := Some "1700000005000" |};
    {| sum_id := "t3"; sum_name := "Unrelated task"; sum_status := None;
       sum_list_name := None; sum_url := None; sum_date_updated := None |} ].

Definition sampleTask : Task :=
  {| task_id := "t1"; task_name := "Invoice #1"; task_status := Some "open";
     task_list_name := Some "Billing";
     task_url := Some "https://app.clickup.com/t/t1";
     task_text_content := Some "Prepare the first invoice.";
     task_description := None |}.

Definition sampleService : TaskService :=
  {| getTaskSummaries := fun _ => Returns sampleSummaries;
     getTask := fun id =>
       if String.eqb id "t1" then Returns sampleTask else Throws "Task not found" |}.

(** A sponsor service that keeps the ids, and one that keeps the id of a
    document; an error response that keeps its message. *)
Definition sampleContent (refs : list Search.ResultRef) : list string :=
  map Search.ref_id refs.

Definition sampleDocument (core : Fetch.DocumentCore) : list string :=
  [Fetch.core_id core].

Definition sampleError (message : string) (detail : option string) : string :=
  message.

Definition sampleParams (query : string) (limit : Z) : Search.SearchParams :=
  Search.ParamObject
    {| Search.arg_query := Some query; Search.arg_search := None;
       Search.arg_q := None;
       Search.arg_limit := Some (Search.LimitNum (Some limit)) |}.

End Sample.

(* ================================================================== *)
(** * The legacy SSE routes and the ChatGPT fetch route                *)
(* ================================================================== *)

Module Legacy.
Import JS Catalog Backend Server.
Local Open Scope string_scope.
Local Open Scope Z_scope.

(** The headers [/sse] and [/messages] set on every reply. *)
Record CorsHeaders := {
  allow_origin : string;
  vary : string;
  allow_credentials : string
}.

(** [(req.headers.origin as string) || '*'] and the two fixed headers. *)
Definition corsFor (origin : option string) : CorsHeaders :=
  {| allow_origin := default "*" (orStr origin (Some "*"));
     vary := "Origin";
     allow_credentials := "true" |}.

(** What [POST /messages] does: it hands the message to a transport, it
    sends a text with a status, or it lets an exception escape. *)
Inductive MessageOutcome (Transport : Type) : Type :=
  | HandlePostMessage (transport : Transport)
  | SendText (status : Z) (text : string)
  | Escapes (error : string).
Arguments HandlePostMessage {Transport} transport.
Arguments SendText {Transport} status text.
Arguments Escapes {Transport} error.

(** The reply of [/chatgpt/fetch]. *)
Inductive ChatReply :=
  | ChatDocument (id content : string) (metadata : Fetch.Metadata)
  | ChatError (status : Z) (error message : string).

(** [metadata?.category]: the value under a key of a metadata object. *)
Fixpoint getKey (key : string) (metadata : Fetch.Metadata) : option string :=
  match metadata with
  | [] => None
  | (k, v) :: rest => if String.eqb k key then v else getKey key rest
  end.

Section Routes.
Context {Transport Content Failure : Type}.
Variable createDocument : Fetch.DocumentCore -> Content.
Variable createErrorResponse : string -> option string -> Failure.

(** [transports.sse[transport.sessionId] = transport] of [GET /sse] and
    the [delete] of its [close] handler. *)
Definition sseOpened (sessionId : string) (transport : Transport)
    (sse : gmap string Transport) : gmap string Transport :=
  <[sessionId := transport]> sse.

Definition sseClosed (sessionId : string)
    (sse : gmap string Transport) : gmap string Transport :=
  delete sessionId sse.

(** [app.post('/messages', ...)].  A query without [sessionId] reads the
    table at the key [undefined]. *)
Definition postMessages (sse : gmap string Transport)
    (origin : option string) (sessionId : option string)
  : CorsHeaders * MessageOutcome Transport :=
  let transport := getMember sse (default "undefined" sessionId) in
  (corsFor origin,
   match transport with
   | Some (Stored t) => HandlePostMessage t
   | Some (Inherited _) => Escapes "transport.handlePostMessage is not a function"
   | None => SendText 400 "No transport found for sessionId"
   end).

(** [app.get('/chatgpt/fetch', ...)] *)
Definition chatgptFetch (queryId : option string) : Prog ChatReply :=
  let id := default "" (orStr queryId (Some "")) in
  if negb (truthy id) then
    Ret (ChatError 400 "Bad Request" "Missing required parameter: id")
  else
    bind (Fetch.handleFetch createDocument createErrorResponse
            (Fetch.IdObject (Some id)))
      (fun result =>
         match result with
         | Fetch.Document d =>
             Ret (ChatDocument (Fetch.doc_id d) (Fetch.doc_text d)
                    [("title", Some (Fetch.doc_title d));
                     ("url", Some (Fetch.doc_url d));
                     ("category",
                      orStr (getKey "category" (Fetch.doc_metadata d))
                        (Some "document"));
                     ("source",
                      Some (if startsWith id "tool:" then "tool_catalog"
                            else "clickup"))])
         | Fetch.Failed _ =>
             Ret (ChatError 404 "Not Found"
                    ("Document with id '" ++ id ++ "' not found"))
         end).
End Routes.

End Legacy.

(* ================================================================== *)
(** * More vocabulary of the properties                                *)
(* ================================================================== *)

Module Terms.
Import JS Catalog Backend.
Local Open Scope string_scope.

(** The limit and the query text [GET /search] reads from a query
    string. *)
Definition searchLimit (qs : Server.SearchQuery) : number :=
  Server.restLimit
    (default "10"
       (orStr (Server.qs_limit qs)
          (orStr (Server.qs_top_k qs)
             (orStr (Server.qs_k qs) (orStr (Server.qs_n qs) (Some "10")))))).

Definition searchText (qs : Server.SearchQuery) : string :=
  default "" (orStr (Server.qs_q qs) (orStr (Server.qs_query qs) (Some ""))).

(** The media types the Accept normalisation adds to the parts of a
    header, in the order in which it adds them. *)
Definition missingTypes (parts : list string) : list string :=
  ((if existsb (fun p => includes p "application/json") parts
    then [] else ["application/json"]) ++
   (if existsb (fun p => includes p "text/event-stream") parts
    then [] else ["text/event-stream"]))%list.

(** The four components of the text of a task document are all empty. *)
Definition blankTask (task : Task) : bool :=
  isEmpty (Spec.bodyOf task) && isEmpty (Spec.statusOf task) &&
  isEmpty (Spec.listOf task) && isEmpty (Spec.urlOf task).

(** A task service that returns one task for every id. *)
Definition serving (task : Task) : TaskService :=
  {| getTaskSummaries := fun _ => Returns [];
     getTask := fun _ => Returns task |}.

(** The first of the values that is present and not empty, or the empty
    string. *)
Fixpoint firstTruthy (values : list (option string)) : string :=
  match values with
  | [] => ""
  | Some v :: rest => if truthy v then v else firstTruthy rest
  | None :: rest => firstTruthy rest
  end.

(** A [GET /mcp] that a proxy forwarded with the original URI in the
    header [x-original-uri]. *)
Definition forwardedRequest (uri : string) (id : option string) : Server.Request :=
  {| Server.x_original_uri := Some uri; Server.x_rewrite_url := None;
     Server.x_forwarded_uri := None; Server.x_forwarded_url := None;
     Server.originalUrl := "/mcp"; Server.url := "/mcp"; Server.path := "/mcp";
     Server.mcp_session_id := None;
     Server.query := Spec.noQuery; Server.query_id := id |}.

End Terms.

(* ================================================================== *)
(** * Properties of the primitives                                     *)
(* ================================================================== *)

Module JSFacts.
Import JS.

Example parseInt_samples :
  JS.parseInt " 42px" = Some 42 /\ JS.parseInt "-5" = Some (-5) /\
  JS.parseInt "abc" = None /\ JS.parseInt "" = None /\
  JS.numberToString (Some 10) = "10"%string /\
  JS.numberToString (Some (-7)) = "-7"%string /\
  JS.split (Ascii.eqb ",") "a,,b" = ["a"; ""; "b"]%string /\
  JS.trim "  a b  " = "a b"%string /\
  JS.includes "hello" "ell" = true /\ JS.includes "hello" "" = true /\
  JS.includes "" "" = true /\
  JS.slice0 [1;2;3;4;5] (Some (-2)) = [1;2;3] /\
  JS.slice0 [1;2;3] (Some (-7)) = [] /\
  JS.sort (fun a b => Some (b - a)) [3;1;2] = [3;2;1].
Proof. repeat split; reflexivity. Qed.

Lemma slice0_nonneg {A : Type} (l : list A) (k : Z) :
  0 <= k -> slice0 l (Some k) = firstn (Z.to_nat k) l.
Proof.
  intros Hk. unfold slice0.
  destruct (Z.ltb_spec k 0) as [Hlt | _]; [lia | reflexivity].
Qed.

Lemma slice0_length {A : Type} (l : list A) (k : Z) :
  0 <= k -> Z.of_nat (length (slice0 l (Some k))) = Z.min k (Z.of_nat (length l)).
Proof.
  intros Hk. rewrite slice0_nonneg by exact Hk.
  rewrite length_firstn. lia.
Qed.

Lemma slice0_all {A : Type} (l : list A) (k : Z) :
  Z.of_nat (length l) <= k -> slice0 l (Some k) = l.
Proof.
  intros Hk. rewrite slice0_nonneg by lia.
  apply firstn_all2. lia.
Qed.

Lemma slice0_map {A B : Type} (f : A -> B) (l : list A) (e : number) :
  slice0 (map f l) e = map f (slice0 l e).
Proof.
  destruct e as [k |]; [| reflexivity].
  unfold slice0. rewrite length_map.
  destruct (k <? 0); apply firstn_map.
Qed.

(** ** The sort *)

Section SortFacts.
Context {A : Type} (cmp : A -> A -> number).
(** [ok] holds of the elements on which the comparator is defined;
    [before] is the order the comparator stands for. *)
Variable ok : A -> Prop.
Variable before : A -> A -> Prop.
Hypothesis before_trans : forall a b c, before a b -> before b c -> before a c.
Hypothesis after_before :
  forall a b, ok a -> ok b -> goesAfter cmp a b = true -> before b a.
Hypothesis stay_before :
  forall a b, ok a -> ok b -> goesAfter cmp a b = false -> before a b.

Lemma insertSorted_perm (a : A) (l : list A) :
  Permutation (insertSorted cmp a l) (a :: l).
Proof using Type.
  induction l as [| b l IH]; simpl.
  - reflexivity.
  - destruct (goesAfter cmp a b).
    + rewrite IH. apply perm_swap.
    + reflexivity.
Qed.

Lemma sort_perm (l : list A) : Permutation (sort cmp l) l.
Proof using Type.
  induction l as [| a l IH]; simpl.
  - reflexivity.
  - rewrite insertSorted_perm. now constructor.
Qed.

Lemma insertSorted_sorted (a : A) (l : list A) :
  ok a -> Forall ok l -> StronglySorted before l ->
  StronglySorted before (insertSorted cmp a l).
Proof using before_trans after_before stay_before.
  intros Ha Hl Hs.
  induction Hs as [| b l Hs IH Hb]; simpl.
  - constructor; [constructor | constructor].
  - inversion Hl as [| ? ? Hokb Hokl]; subst.
    destruct (goesAfter cmp a b) eqn:E.
    + constructor; [now apply IH |].
      eapply Permutation_Forall.
      * symmetry. apply insertSorted_perm.
      * constructor; [now apply after_before | exact Hb].
    + assert (Hab : before a b) by now apply stay_before.
      constructor; [now constructor |].
      constructor; [exact Hab |].
      eapply List.Forall_impl; [| exact Hb].
      intros c Hbc. now apply before_trans with b.
Qed.

Lemma sort_sorted (l : list A) :
  Forall ok l -> StronglySorted before (sort cmp l).
Proof using before_trans after_before stay_before.
  induction l as [| a l IH]; simpl; intros Hl.
  - constructor.
  - inversion Hl; subst.
    apply insertSorted_sorted; auto.
    eapply Permutation_Forall; [symmetry; apply sort_perm | assumption].
Qed.
End SortFacts.

(** Sorting the images under [f] is sorting with the comparator read
    through [f]. *)
Lemma sort_map {A B : Type} (f : A -> B) (cmp : B -> B -> number) (l : list A) :
  sort cmp (map f l) = map f (sort (fun a b => cmp (f a) (f b)) l).
Proof.
  induction l as [| a l IH]; simpl; [reflexivity |].
  rewrite IH. generalize (sort (fun a b => cmp (f a) (f b)) l) as s.
  induction s as [| b s IHs]; simpl; [reflexivity |].
  unfold goesAfter. destruct (cmp (f a) (f b)) as [v |].
  - destruct (0 <? v); simpl; [now rewrite IHs | reflexivity].
  - reflexivity.
Qed.

(** ** Strings: [split], [join] and [trim] *)

Lemma split_not_nil (isSep : ascii -> bool) (s : string) : split isSep s <> [].
Proof.
  destruct s as [| c s]; simpl; [discriminate |].
  destruct (isSep c); [discriminate |].
  destruct (split isSep s); discriminate.
Qed.

Lemma split_free (isSep : ascii -> bool) (p : string) :
  Spec.noneOf isSep p = true -> split isSep p = [p].
Proof.
  induction p as [| c p IH]; simpl; [reflexivity |].
  destruct (isSep c); simpl; [discriminate |].
  intros H. now rewrite IH.
Qed.

Lemma split_free_app (isSep : ascii -> bool) (p : string) (c : ascii) (s : string) :
  Spec.noneOf isSep p = true -> isSep c = true ->
  split isSep (p ++ String c s) = p :: split isSep s.
Proof.
  intros Hp Hc. induction p as [| d p IH]; simpl.
  - now rewrite Hc.
  - simpl in Hp. destruct (isSep d); simpl in Hp; [discriminate |].
    now rewrite IH.
Qed.

Lemma split_pieces_free (isSep : ascii -> bool) (s : string) :
  Forall (fun p => Spec.noneOf isSep p = true) (split isSep s).
Proof.
  induction s as [| c s IH]; simpl.
  - repeat constructor.
  - destruct (isSep c) eqn:E.
    + constructor; [reflexivity | exact IH].
    + destruct (split isSep s) as [| p ps]; [repeat constructor; simpl; now rewrite E |].
      inversion IH; subst. constructor; [simpl; now rewrite E | assumption].
Qed.

Lemma noneOf_trimStart (f : ascii -> bool) (s : string) :
  Spec.noneOf f s = true -> Spec.noneOf f (trimStart s) = true.
Proof.
  induction s as [| c s IH]; simpl; [reflexivity |].
  intros H. destruct (isWhiteSpace c); [| exact H].
  apply IH. now destruct (f c).
Qed.

Lemma noneOf_trimEnd (f : ascii -> bool) (s : string) :
  Spec.noneOf f s = true -> Spec.noneOf f (trimEnd s) = true.
Proof.
  induction s as [| c s IH]; simpl; [reflexivity |].
  intros H. destruct (f c) eqn:E; simpl in H; [discriminate |].
  destruct (isWhiteSpace c && isEmpty (trimEnd s)); simpl; [reflexivity |].
  rewrite E. simpl. now apply IH.
Qed.

Lemma trimEnd_idem (s : string) : trimEnd (trimEnd s) = trimEnd s.
Proof.
  induction s as [| c s IH]; simpl; [reflexivity |].
  destruct (isWhiteSpace c && isEmpty (trimEnd s)) eqn:E; simpl; [reflexivity |].
  now rewrite IH, E.
Qed.

Lemma trimStart_head (s : string) :
  match trimStart s with
  | EmptyString => True
  | String c _ => isWhiteSpace c = false
  end.
Proof.
  induction s as [| c s IH]; simpl; [exact I |].
  destruct (isWhiteSpace c) eqn:E; [exact IH | exact E].
Qed.

Lemma trimEnd_cons (c : ascii) (t : string) :
  isWhiteSpace c = false -> trimEnd (String c t) = String c (trimEnd t).
Proof. intros H. cbn [trimEnd]. now rewrite H. Qed.

Lemma trimStart_cons (c : ascii) (t : string) :
  isWhiteSpace c = false -> trimStart (String c t) = String c t.
Proof. intros H. cbn [trimStart]. now rewrite H. Qed.

Lemma trim_idem (s : string) : trim (trim s) = trim s.
Proof.
  unfold trim. pose proof (trimStart_head s) as H.
  destruct (trimStart s) as [| c t]; [reflexivity |].
  rewrite (trimEnd_cons c t H), (trimStart_cons c _ H).
  rewrite (trimEnd_cons c _ H). now rewrite trimEnd_idem.
Qed.

(** ** [parseInt] reads back what [String] prints *)

(** One step of [parseDigits] on the digit [c] of value [k]. *)
Ltac read_digit c k :=
  cbn [NilEmpty.string_of_uint parseDigits Pos.of_uint_acc Pos.of_uint];
  change (digitOf c) with (Some k); cbv iota beta.

Lemma parseDigits_acc (d : Decimal.uint) (acc : positive) :
  parseDigits (NilEmpty.string_of_uint d) (Some (Z.pos acc)) =
  Some (Z.pos (Pos.of_uint_acc d acc)).
Proof.
  revert acc. induction d; intros acc.
  - reflexivity.
  - read_digit "0"%char 0. cbn [from_option]; unfold id. rewrite <- IHd. first [reflexivity | do 2 f_equal; lia].
  - read_digit "1"%char 1. cbn [from_option]; unfold id. rewrite <- IHd. first [reflexivity | do 2 f_equal; lia].
  - read_digit "2"%char 2. cbn [from_option]; unfold id. rewrite <- IHd. first [reflexivity | do 2 f_equal; lia].
  - read_digit "3"%char 3. cbn [from_option]; unfold id. rewrite <- IHd. first [reflexivity | do 2 f_equal; lia].
  - read_digit "4"%char 4. cbn [from_option]; unfold id. rewrite <- IHd. first [reflexivity | do 2 f_equal; lia].
  - read_digit "5"%char 5. cbn [from_option]; unfold id. rewrite <- IHd. first [reflexivity | do 2 f_equal; lia].
  - read_digit "6"%char 6. cbn [from_option]; unfold id. rewrite <- IHd. first [reflexivity | do 2 f_equal; lia].
  - read_digit "7"%char 7. cbn [from_option]; unfold id. rewrite <- IHd. first [reflexivity | do 2 f_equal; lia].
  - read_digit "8"%char 8. cbn [from_option]; unfold id. rewrite <- IHd. first [reflexivity | do 2 f_equal; lia].
  - read_digit "9"%char 9. cbn [from_option]; unfold id. rewrite <- IHd. first [reflexivity | do 2 f_equal; lia].
Qed.

Lemma parseDigits_uint (d : Decimal.uint) (acc : number) :
  default 0 acc = 0 ->
  parseDigits (NilEmpty.string_of_uint d) acc =
  match d with
  | Decimal.Nil => acc
  | _ => Some (Z.of_N (Pos.of_uint d))
  end.
Proof.
  revert acc. induction d; intros acc Hacc.
  - reflexivity.
  - read_digit "0"%char 0. rewrite Hacc.
    rewrite IHd by reflexivity. now destruct d.
  - read_digit "1"%char 1. rewrite Hacc. apply (parseDigits_acc d 1).
  - read_digit "2"%char 2. rewrite Hacc. apply (parseDigits_acc d 2).
  - read_digit "3"%char 3. rewrite Hacc. apply (parseDigits_acc d 3).
  - read_digit "4"%char 4. rewrite Hacc. apply (parseDigits_acc d 4).
  - read_digit "5"%char 5. rewrite Hacc. apply (parseDigits_acc d 5).
  - read_digit "6"%char 6. rewrite Hacc. apply (parseDigits_acc d 6).
  - read_digit "7"%char 7. rewrite Hacc. apply (parseDigits_acc d 7).
  - read_digit "8"%char 8. rewrite Hacc. apply (parseDigits_acc d 8).
  - read_digit "9"%char 9. rewrite Hacc. apply (parseDigits_acc d 9).
Qed.

Lemma parseInt_uint (d : Decimal.uint) :
  parseInt (NilEmpty.string_of_uint d) = parseDigits (NilEmpty.string_of_uint d) None.
Proof. destruct d; reflexivity. Qed.

Lemma parseDigits_positive (p : positive) :
  parseDigits (NilEmpty.string_of_uint (Pos.to_uint p)) None = Some (Z.pos p).
Proof.
  rewrite parseDigits_uint by reflexivity.
  pose proof (DecimalPos.Unsigned.to_uint_nonnil p) as Hnil.
  pose proof (DecimalPos.Unsigned.of_to p) as Hof.
  destruct (Pos.to_uint p); [contradiction | ..]; now rewrite Hof.
Qed.

(** For an integer [z], [parseInt(String(z), 10)] is [z]. *)
Lemma parseInt_numberToString (z : Z) :
  parseInt (numberToString (Some z)) = Some z.
Proof.
  destruct z as [| p | p]; cbn [numberToString Z.to_int NilEmpty.string_of_int].
  - reflexivity.
  - rewrite parseInt_uint. apply parseDigits_positive.
  - change (parseInt (String "-" (NilEmpty.string_of_uint (Pos.to_uint p))))
      with (option_map Z.opp
              (parseDigits (NilEmpty.string_of_uint (Pos.to_uint p)) None)).
    now rewrite parseDigits_positive.
Qed.

(** ** Substrings *)

#[local] Arguments String.append : simpl nomatch.

Lemma append_assoc (a b c : string) : ((a ++ b) ++ c = a ++ (b ++ c))%string.
Proof. induction a as [| x a IH]; simpl; [reflexivity | now f_equal]. Qed.

Lemma append_nil_r (a : string) : (a ++ "" = a)%string.
Proof. induction a as [| x a IH]; simpl; [reflexivity | now f_equal]. Qed.

Lemma prefix_nil (s : string) : String.prefix "" s = true.
Proof. now destruct s. Qed.

Lemma prefix_app (x post : string) : String.prefix x (x ++ post) = true.
Proof.
  induction x as [| c x IH]; simpl; [apply prefix_nil |].
  destruct (Ascii.ascii_dec c c); [exact IH | contradiction].
Qed.

(** A string includes what stands between a prefix and a suffix. *)
Lemma includes_app (pre x post : string) :
  includes (pre ++ x ++ post) x = true.
Proof.
  induction pre as [| c pre IH]; simpl.
  - destruct (x ++ post)%string eqn:E.
    + destruct x; [reflexivity | discriminate].
    + cbn [includes]. rewrite <- E, prefix_app. reflexivity.
  - rewrite IH. apply orb_true_r.
Qed.

Lemma prefix_split (x s : string) :
  String.prefix x s = true -> exists post, s = (x ++ post)%string.
Proof.
  revert s. induction x as [| c x IH]; intros s.
  - intros _. now exists s.
  - destruct s as [| d s]; [discriminate |]. simpl.
    destruct (Ascii.ascii_dec c d) as [<- | _]; [| discriminate].
    intros H. destruct (IH s H) as (post & ->). now exists post.
Qed.

Lemma includes_split (s x : string) :
  includes s x = true -> exists pre post, s = (pre ++ x ++ post)%string.
Proof.
  induction s as [| c s IH]; cbn [includes].
  - rewrite orb_false_r. intros H.
    apply prefix_split in H as (post & H). now exists ""%string, post.
  - intros H. apply orb_prop in H as [H | H].
    + apply prefix_split in H as (post & H). now exists ""%string, post.
    + destruct (IH H) as (pre & post & ->). now exists (String c pre), post.
Qed.

(** [includes] is monotone: what a part of [s] includes, [s] includes. *)
Lemma includes_within (pre s post x : string) :
  includes s x = true -> includes (pre ++ s ++ post) x = true.
Proof.
  intros H. apply includes_split in H as (a & b & ->).
  replace (pre ++ (a ++ x ++ b) ++ post)%string
    with ((pre ++ a) ++ x ++ (b ++ post))%string.
  - apply includes_app.
  - now rewrite !append_assoc.
Qed.

Lemma trimStart_within (s : string) :
  exists pre, s = (pre ++ trimStart s)%string.
Proof.
  induction s as [| c s (pre & IH)]; simpl.
  - now exists ""%string.
  - destruct (isWhiteSpace c).
    + exists (String c pre). simpl. now rewrite <- IH.
    + now exists ""%string.
Qed.

Lemma trimEnd_within (s : string) :
  exists post, s = (trimEnd s ++ post)%string.
Proof.
  induction s as [| c s (post & IH)]; simpl.
  - now exists ""%string.
  - destruct (isWhiteSpace c && isEmpty (trimEnd s)).
    + now exists (String c s).
    + exists post. simpl. now rewrite <- IH.
Qed.

Lemma trim_within (s : string) :
  exists pre post, s = (pre ++ trim s ++ post)%string.
Proof.
  destruct (trimStart_within s) as (pre & Hpre).
  destruct (trimEnd_within (trimStart s)) as (post & Hpost).
  exists pre, post. unfold trim. now rewrite <- Hpost.
Qed.

Lemma split_within (isSep : ascii -> bool) (s piece : string) :
  In piece (split isSep s) -> exists pre post, s = (pre ++ piece ++ post)%string.
Proof.
  revert piece. induction s as [| c s IH]; intros piece; simpl.
  - intros [<- | []]. now exists ""%string, ""%string.
  - destruct (isSep c).
    + intros [<- | H].
      * now exists ""%string, (String c s).
      * destruct (IH piece H) as (pre & post & ->). now exists (String c pre), post.
    + destruct (split isSep s) as [| p ps] eqn:E.
      * intros [<- | []]. exists ""%string, s. reflexivity.
      * intros [<- | H].
        -- destruct (IH p (or_introl eq_refl)) as (pre & post & Hs).
           (* [p] is the first piece: nothing stands before it *)
           assert (Hfirst : exists post', s = (p ++ post')%string).
           { clear -E. revert p ps E. induction s as [| d s IHs]; intros p ps E.
             - simpl in E. injection E as <- <-. now exists ""%string.
             - simpl in E. destruct (isSep d).
               + injection E as <- <-. now exists (String d s).
               + destruct (split isSep s) as [| q qs]; [injection E as <- <- |].
                 * now exists s.
                 * injection E as <- <-.
                   destruct (IHs q qs eq_refl) as (post' & ->). now exists post'. }
           destruct Hfirst as (post' & ->). now exists ""%string, post'.
        -- destruct (IH piece (or_intror H)) as (pre & post & ->).
           now exists (String c pre), post.
Qed.

Lemma join_within (sep p : string) (ps : list string) :
  In p ps -> exists pre post, join sep ps = (pre ++ p ++ post)%string.
Proof.
  induction ps as [| q ps IH]; [intros [] |].
  intros [-> | H].
  - destruct ps as [| r ps].
    + exists ""%string, ""%string. simpl. now rewrite append_nil_r.
    + now exists ""%string, (sep ++ join sep (r :: ps))%string.
  - destruct ps as [| r ps]; [destruct H |].
    destruct (IH H) as (pre & post & E).
    exists (q ++ sep ++ pre)%string, post.
    change (join sep (q :: r :: ps)) with (q ++ sep ++ join sep (r :: ps))%string.
    now rewrite E, !append_assoc.
Qed.

End JSFacts.

(* ================================================================== *)
(** * Properties of the search tool                                    *)
(* ================================================================== *)

Module SearchFacts.
Import JS Catalog Backend Search Spec JSFacts.
Local Open Scope string_scope.
Local Open Scope Z_scope.

(** ** The catalog text match *)

Lemma partFound_tokenHit (qPart : string) (toolParts : list string) :
  partFound qPart toolParts = tokenHit toolParts qPart.
Proof.
  induction toolParts as [| t ts IH]; simpl; [reflexivity |].
  rewrite IH. now destruct (includes t qPart || includes qPart t).
Qed.

Lemma significant_cons (qp : string) (rest : list string) :
  significant (qp :: rest) =
  if (2 <=? String.length qp)%nat then qp :: significant rest else significant rest.
Proof. reflexivity. Qed.

Lemma countMatches_hits (queryParts toolParts : list string) (matches : Z) :
  countMatches queryParts toolParts matches =
  matches + Z.of_nat (length (List.filter (tokenHit toolParts) (significant queryParts))).
Proof.
  revert matches.
  induction queryParts as [| qp rest IH]; intros matches.
  - simpl. lia.
  - rewrite significant_cons. cbn [countMatches].
    rewrite Nat.ltb_antisym.
    destruct (2 <=? String.length qp)%nat; cbn [negb]; rewrite IH.
    + cbn [List.filter]. rewrite partFound_tokenHit.
      destruct (tokenHit toolParts qp); cbn [length]; lia.
    + reflexivity.
Qed.

(** C8, as the code has it.  The catalog text match holds exactly when
    the lowercased query is a substring of the combined text of the
    entry, or the query tokens of length at least 2 that are contained
    in, or contain, a token of the entry number at least
    [max 1 (floor (0.6 * n))], where [n] counts all the query tokens, the
    short ones included. *)
Theorem toolCatalogMatches_policy (tool : ToolCatalogEntry) (query : string) :
  let q := toLowerCase query in
  let queryParts := splitParts q in
  let toolParts := splitParts (toolText tool) in
  toolCatalogMatches tool query = true <->
  includes (toolText tool) q = true \/
  Z.max 1 (Z.of_nat (length queryParts) * 6 / 10)
    <= Z.of_nat (length (List.filter (tokenHit toolParts) (significant queryParts))).
Proof.
  intros q queryParts toolParts. unfold toolCatalogMatches.
  fold q. fold queryParts. fold toolParts.
  destruct (includes (toolText tool) q) eqn:E.
  - split; [intros _; now left | reflexivity].
  - rewrite countMatches_hits. unfold floorSixTenths.
    rewrite Z.leb_le. split.
    + intros H. right. lia.
    + intros [H | H]; [discriminate | lia].
Qed.

(** C8, as the specification has it, fails: one of the two tokens of the query
    [search zzz] hits the entry [tool:search], which is 50% of the
    significant tokens, and the code declares a match; the four short
    tokens of [x y z w fetch] count in the threshold of the code, which
    declares no match with [tool:fetch] although the only significant
    token hits. *)
Lemma toolCatalogMatches_not_sixty_percent :
  toolCatalogMatches
    (mkEntry "tool:search" "search" "Search"
       "Universal retrieval: search by keywords and return top-k IDs.")
    "search zzz" = true /\
  claimedCatalogMatch
    (mkEntry "tool:search" "search" "Search"
       "Universal retrieval: search by keywords and return top-k IDs.")
    "search zzz" = false /\
  toolCatalogMatches
    (mkEntry "tool:fetch" "fetch" "Fetch"
       "Universal retrieval: fetch a single document by ID and return id, title, text, url, metadata.")
    "x y z w fetch" = false /\
  claimedCatalogMatch
    (mkEntry "tool:fetch" "fetch" "Fetch"
       "Universal retrieval: fetch a single document by ID and return id, title, text, url, metadata.")
    "x y z w fetch" = true.
Proof. repeat split; vm_compute; reflexivity. Qed.

(** ** The time stamp *)

(** On a decimal numeral [parseInt] returns the integer it denotes. *)
Lemma parseInt_numeral (s : string) (n : Z) :
  numeral s = Some n -> parseInt s = Some n.
Proof.
  unfold numeral.
  destruct (NilZero.int_of_string s) as [d |] eqn:E; [| discriminate].
  intros H. injection H as <-.
  destruct s as [| a s]; [discriminate |].
  unfold NilZero.int_of_string in E.
  destruct (Ascii.eqb a "-") eqn:Ea.
  - apply Ascii.eqb_eq in Ea. subst a.
    destruct (NilZero.uint_of_string s) as [u |] eqn:Eu; [| discriminate].
    injection E as <-.
    destruct s as [| b s]; [discriminate |].
    apply NilEmpty.sus in Eu. rewrite <- Eu.
    change (parseInt (String "-" (NilEmpty.string_of_uint u)))
      with (option_map Z.opp (parseDigits (NilEmpty.string_of_uint u) None)).
    rewrite parseDigits_uint by reflexivity.
    destruct u; [discriminate | ..]; reflexivity.
  - destruct (NilZero.uint_of_string (String a s)) as [u |] eqn:Eu; [| discriminate].
    injection E as <-.
    apply NilEmpty.sus in Eu. rewrite <- Eu.
    rewrite parseInt_uint, parseDigits_uint by reflexivity.
    destruct u; [discriminate | ..]; reflexivity.
Qed.

(** The time stamp the handler computes is the date written in the
    summary. *)
Lemma updatedAt_stamp (t : TaskSummary) :
  numericDate t = true -> updatedAt t = Some (updated t).
Proof.
  unfold numericDate, updated, stamp, updatedAt.
  destruct (sum_date_updated t) as [[| c s] |]; [reflexivity | | reflexivity].
  destruct (numeral (String c s)) as [n |] eqn:E; [| discriminate].
  intros _. cbn [truthy]. now rewrite (parseInt_numeral _ _ E).
Qed.

(** ** The effective limit *)

Lemma effectiveLimit_range (params : SearchParams) (L : Z) :
  effectiveLimit params = Some L -> 1 <= L <= 50.
Proof.
  unfold effectiveLimit.
  destruct (parseInt (stringOfLimit (rawLimit params))) as [n |]; simpl;
    [| discriminate].
  intros H. injection H as <-. lia.
Qed.

Lemma effectiveLimit_clamps (params : SearchParams) (n : Z) :
  parseInt (stringOfLimit (rawLimit params)) = Some n ->
  effectiveLimit params = Some (Z.max 1 (Z.min n 50)).
Proof. unfold effectiveLimit. now intros ->. Qed.

Lemma effectiveLimit_default (params : SearchParams) :
  rawLimit params = LimitNum (Some 10) -> effectiveLimit params = Some 10.
Proof. unfold effectiveLimit. now intros ->. Qed.

(** Every integer limit below 10^21 in magnitude is clamped into the
    range from 1 to 50. *)
Lemma effectiveLimit_integer (o : SearchArgs) (n : Z) :
  Z.abs n < 10 ^ 21 ->
  arg_limit o = Some (LimitNum (Some n)) ->
  effectiveLimit (ParamObject o) = Some (Z.max 1 (Z.min n 50)).
Proof.
  intros _ H. apply effectiveLimit_clamps.
  unfold rawLimit. rewrite H. apply parseInt_numberToString.
Qed.

(** A limit that is not a number is not clamped: it stays [NaN]. *)
Lemma effectiveLimit_nan (o : SearchArgs) (s : string) :
  arg_limit o = Some (LimitStr s) -> parseInt s = None ->
  effectiveLimit (ParamObject o) = None.
Proof.
  intros H Hs. unfold effectiveLimit, rawLimit. rewrite H.
  change (stringOfLimit (default (LimitNum (Some 10)) (Some (LimitStr s)))) with s.
  now rewrite Hs.
Qed.

(** ** The ranking *)

Section Ranking.
Context {Content : Type}.
Variable createResponse : list ResultRef -> Content.
Variable isNameMatch : string -> string -> MatchResult.
Variable openAiToolIndexFallback : bool.

Abbreviation handleSearch :=
  (handleSearch createResponse isNameMatch openAiToolIndexFallback).

Lemma filter_rank (query : string) (l : list TaskSummary) :
  List.filter r_matched (map (rank isNameMatch query) l) =
  map (rank isNameMatch query) (List.filter (matched isNameMatch query) l).
Proof using Type.
  induction l as [| t l IH]; simpl; [reflexivity |].
  unfold matched at 1. destruct (isMatch (isNameMatch (sum_name t) query));
    simpl; now rewrite IH.
Qed.

Lemma rankedBefore_trans (query : string) (a b c : TaskSummary) :
  rankedBefore isNameMatch query a b -> rankedBefore isNameMatch query b c ->
  rankedBefore isNameMatch query a c.
Proof using Type. unfold rankedBefore. lia. Qed.

Lemma compareRanked_after (query : string) (a b : TaskSummary) :
  numericDate a = true -> numericDate b = true ->
  goesAfter (fun x y => compareRanked (rank isNameMatch query x) (rank isNameMatch query y)) a b = true ->
  rankedBefore isNameMatch query b a.
Proof using Type.
  intros Ha Hb.
  unfold goesAfter, compareRanked, rankedBefore, scoreOf, rank.
  cbn [r_score r_t].
  rewrite (updatedAt_stamp a Ha), (updatedAt_stamp b Hb).
  destruct (Z.eqb_spec (score (isNameMatch (sum_name b) query))
              (score (isNameMatch (sum_name a) query))) as [E | E];
    cbn [negb sub]; rewrite Z.ltb_lt; lia.
Qed.

Lemma compareRanked_stay (query : string) (a b : TaskSummary) :
  numericDate a = true -> numericDate b = true ->
  goesAfter (fun x y => compareRanked (rank isNameMatch query x) (rank isNameMatch query y)) a b = false ->
  rankedBefore isNameMatch query a b.
Proof using Type.
  intros Ha Hb.
  unfold goesAfter, compareRanked, rankedBefore, scoreOf, rank.
  cbn [r_score r_t].
  rewrite (updatedAt_stamp a Ha), (updatedAt_stamp b Hb).
  destruct (Z.eqb_spec (score (isNameMatch (sum_name b) query))
              (score (isNameMatch (sum_name a) query))) as [E | E];
    cbn [negb sub]; rewrite Z.ltb_ge; lia.
Qed.

(** [ranked] is the sorted list of the matched summaries, cut. *)
Lemma ranked_sorted (query : string) (limit : number) (summaries : list TaskSummary) :
  forallb numericDate summaries = true ->
  exists sorted : list TaskSummary,
    Permutation sorted (List.filter (matched isNameMatch query) summaries) /\
    StronglySorted (rankedBefore isNameMatch query) sorted /\
    ranked isNameMatch query limit summaries = map (rank isNameMatch query) (slice0 sorted limit).
Proof using Type.
  intros Hdates.
  set (cmp := fun x y => compareRanked (rank isNameMatch query x) (rank isNameMatch query y)).
  exists (sort cmp (List.filter (matched isNameMatch query) summaries)).
  split; [apply sort_perm |]. split.
  - apply (sort_sorted cmp (fun t => numericDate t = true)).
    + intros a b c. apply rankedBefore_trans.
    + intros a b. apply compareRanked_after.
    + intros a b. apply compareRanked_stay.
    + apply List.Forall_forall. intros t Ht.
      apply filter_In in Ht as [Ht _].
      rewrite forallb_forall in Hdates. now apply Hdates.
  - unfold ranked. fold (rank isNameMatch query).
    rewrite filter_rank, sort_map, slice0_map. reflexivity.
Qed.

(** C1.  For a query that is not empty and the summaries the task
    service returns (every [date_updated], when present, being a decimal
    numeral of at most 2^53 - 1 in magnitude, and a numeric limit being
    below 10^21), [handleSearch] keeps the summaries the Matching Engine
    declares matched, orders them by strictly descending score, equal
    scores by descending [date_updated], the number written in the
    summary, a missing date counting as 0, cuts the ordered list at the
    effective limit, and builds the ids and the results of the response
    from what is left, in that order. *)
Theorem handleSearch_ranks_matches
    (params : SearchParams) (svc : TaskService) (summaries : list TaskSummary) :
  truthy (trim (queryVal params)) = true ->
  plainLimit params = true ->
  getTaskSummaries svc summaryFilter = Returns summaries ->
  forallb numericDate summaries = true ->
  let query := trim (queryVal params) in
  let limit := effectiveLimit params in
  exists sorted : list TaskSummary,
    Permutation sorted (List.filter (matched isNameMatch query) summaries) /\
    StronglySorted (rankedBefore isNameMatch query) sorted /\
    map r_t (ranked isNameMatch query limit summaries) = slice0 sorted limit /\
    (forall L, limit = Some L ->
       1 <= L <= 50 /\ slice0 sorted limit = firstn (Z.to_nat L) sorted) /\
    (slice0 sorted limit <> [] ->
       let response := fst (run svc (handleSearch params)) in
       results response = map taskResult (slice0 sorted limit) /\
       ids response = map sum_id (slice0 sorted limit) /\
       objectIds response = ids response).
Proof using Type.
  intros Hq _ Hsvc Hdates query limit.
  destruct (ranked_sorted query limit summaries Hdates)
    as (sorted & Hperm & Hsorted & Hranked).
  exists sorted. split; [exact Hperm |]. split; [exact Hsorted |].
  assert (Hmap : map r_t (ranked isNameMatch query limit summaries)
                 = slice0 sorted limit).
  { rewrite Hranked, map_map. simpl. apply map_id. }
  split; [exact Hmap |]. split.
  - intros L HL. pose proof (effectiveLimit_range params L HL) as HR.
    split; [exact HR |]. rewrite HL. apply slice0_nonneg. lia.
  - intros Hne response. subst response.
    unfold Search.handleSearch. cbv zeta. rewrite Hq.
    fold query. fold limit. cbn [negb run]. rewrite Hsvc.
    destruct (ranked isNameMatch query limit summaries) as [| r rs] eqn:E.
    + simpl in Hmap. congruence.
    + cbn [length Nat.eqb run fst]. unfold rankedResponse, respond.
      cbn [results ids objectIds]. rewrite <- Hmap, !map_map.
      repeat split; reflexivity.
Qed.
End Ranking.

(** ** The branches of the handler *)

Lemma toolCatalog_length : length toolCatalog = 41%nat.
Proof. reflexivity. Qed.

#[local] Opaque toolCatalog.

Lemma compareRecent_after (a b : TaskSummary) :
  numericDate a = true -> numericDate b = true ->
  goesAfter compareRecent a b = true -> recentBefore b a.
Proof.
  intros Ha Hb. unfold goesAfter, compareRecent, recentBefore.
  rewrite (updatedAt_stamp a Ha), (updatedAt_stamp b Hb).
  cbn [sub]. rewrite Z.ltb_lt. lia.
Qed.

Lemma compareRecent_stay (a b : TaskSummary) :
  numericDate a = true -> numericDate b = true ->
  goesAfter compareRecent a b = false -> recentBefore a b.
Proof.
  intros Ha Hb. unfold goesAfter, compareRecent, recentBefore.
  rewrite (updatedAt_stamp a Ha), (updatedAt_stamp b Hb).
  cbn [sub]. rewrite Z.ltb_ge. lia.
Qed.

Lemma sort_recent_sorted (summaries : list TaskSummary) :
  forallb numericDate summaries = true ->
  StronglySorted recentBefore (sort compareRecent summaries).
Proof.
  intros Hdates.
  apply (sort_sorted compareRecent (fun t => numericDate t = true)).
  - unfold recentBefore. intros a b c. lia.
  - apply compareRecent_after.
  - apply compareRecent_stay.
  - apply List.Forall_forall. intros t Ht.
    rewrite forallb_forall in Hdates. now apply Hdates.
Qed.

Lemma filter_none {A : Type} (f : A -> bool) (l : list A) :
  forallb (fun x => negb (f x)) l = true -> List.filter f l = [].
Proof.
  induction l as [| a l IH]; simpl; [reflexivity |].
  destruct (f a); simpl; [discriminate | exact IH].
Qed.

Section Branches.
Context {Content : Type}.
Variable createResponse : list ResultRef -> Content.
Variable isNameMatch : string -> string -> MatchResult.
Variable openAiToolIndexFallback : bool.

Abbreviation handleSearch :=
  (handleSearch createResponse isNameMatch openAiToolIndexFallback).

(** The baseline under a limit that is a number.  For a query that is
    empty or all white space and a limit of effective value [L] (a
    numeric limit being below 10^21), [handleSearch] returns without a
    call to the task service; its results are the first
    [min L catalogSize] entries of the catalog, in the order of the
    catalog, and they are not empty. *)
Lemma handleSearch_empty_query (params : SearchParams) (L : Z) :
  truthy (trim (queryVal params)) = false ->
  plainLimit params = true ->
  effectiveLimit params = Some L ->
  exists response : SearchResponse Content,
    handleSearch params = Ret response /\
    (forall svc, run svc (handleSearch params) = (response, [])) /\
    results response =
      map toolBrief
        (firstn (Z.to_nat (Z.min L (Z.of_nat (length toolCatalog)))) toolCatalog) /\
    ids response =
      map tool_id
        (firstn (Z.to_nat (Z.min L (Z.of_nat (length toolCatalog)))) toolCatalog) /\
    objectIds response = ids response /\
    Z.of_nat (length (results response)) = Z.min L (Z.of_nat (length toolCatalog)) /\
    results response <> [].
Proof using Type.
  intros Hq _ HL.
  pose proof (effectiveLimit_range params L HL) as HR.
  assert (Hcut : slice0 toolCatalog (Some L) =
                 firstn (Z.to_nat (Z.min L (Z.of_nat (length toolCatalog)))) toolCatalog).
  { rewrite slice0_nonneg by lia.
    destruct (Z.le_ge_cases L (Z.of_nat (length toolCatalog))) as [Hle | Hge].
    - now rewrite Z.min_l by exact Hle.
    - rewrite Z.min_r by exact Hge. rewrite Nat2Z.id.
      rewrite firstn_all. apply firstn_all2. lia. }
  assert (Hrun : Search.handleSearch createResponse isNameMatch
                   openAiToolIndexFallback params
                 = Ret (catalogBaseline createResponse (Some L))).
  { unfold Search.handleSearch. cbv zeta. rewrite Hq, HL. reflexivity. }
  exists (catalogBaseline createResponse (Some L)).
  split; [exact Hrun |]. split; [intros svc; now rewrite Hrun |].
  unfold catalogBaseline, respond. cbn [results ids objectIds].
  rewrite Hcut, !map_map. cbn [toolBrief res_id].
  assert (Hlen : Z.of_nat
                   (length
                      (map toolBrief
                         (firstn (Z.to_nat (Z.min L (Z.of_nat (length toolCatalog))))
                            toolCatalog)))
                 = Z.min L (Z.of_nat (length toolCatalog))).
  { rewrite length_map, length_firstn, toolCatalog_length. lia. }
  repeat split; try reflexivity; try exact Hlen.
  intros Hnil. rewrite Hnil in Hlen. cbn [length] in Hlen.
  rewrite toolCatalog_length in Hlen. lia.
Qed.

(** The recency fallback under a limit that is a number.  For a query
    that is not empty, summaries none of which the Matching Engine
    declares matched (their dates being numerals in the exact range),
    and a limit of effective value [L] (a numeric limit being below
    10^21), the results are the [L] most recently updated summaries, by
    descending [date_updated], followed, when the tool-index fallback is
    enabled, by the catalog entries that match the query, as many as fit
    under [L]; they are not empty when the task service returned a
    summary. *)
Lemma handleSearch_no_match
    (params : SearchParams) (svc : TaskService) (summaries : list TaskSummary)
    (L : Z) :
  truthy (trim (queryVal params)) = true ->
  plainLimit params = true ->
  getTaskSummaries svc summaryFilter = Returns summaries ->
  forallb numericDate summaries = true ->
  forallb (fun t => negb (matched isNameMatch (trim (queryVal params)) t))
    summaries = true ->
  effectiveLimit params = Some L ->
  let query := trim (queryVal params) in
  let response := fst (run svc (handleSearch params)) in
  exists recent : list TaskSummary,
    Permutation recent summaries /\
    StronglySorted recentBefore recent /\
    let top := firstn (Z.to_nat L) recent in
    let tools :=
      if openAiToolIndexFallback
      then firstn (Z.to_nat L - length top)
             (List.filter (fun t => toolCatalogMatches t query) toolCatalog)
      else [] in
    results response = (map taskResult top ++ map toolResult' tools)%list /\
    ids response = (map sum_id top ++ map tool_id tools)%list /\
    objectIds response = ids response /\
    (length (results response) <= Z.to_nat L)%nat /\
    (summaries <> [] -> results response <> []).
Proof using Type.
  intros Hq _ Hsvc Hdates Hnone HL query response.
  pose proof (effectiveLimit_range params L HL) as HR.
  exists (sort compareRecent summaries).
  split; [apply sort_perm |]. split; [now apply sort_recent_sorted |].
  intros top tools.
  assert (Hranked : ranked isNameMatch query (Some L) summaries = []).
  { unfold ranked. fold (rank isNameMatch query).
    rewrite filter_rank.
    rewrite (filter_none (matched isNameMatch query) summaries Hnone).
    cbn [map sort]. rewrite slice0_nonneg by lia. apply firstn_nil. }
  assert (Htop : (length top <= Z.to_nat L)%nat).
  { unfold top. rewrite length_firstn. lia. }
  assert (Htools : (length tools <= Z.to_nat L - length top)%nat).
  { unfold tools. destruct openAiToolIndexFallback; [| cbn [length]; lia].
    rewrite length_firstn. apply Nat.le_min_l. }
  assert (Hresp : response =
            respond createResponse (map sum_id top ++ map tool_id tools)%list
              (map taskResult top ++ map toolResult' tools)%list).
  { unfold response, Search.handleSearch. cbv zeta. rewrite Hq, HL.
    fold query. cbn [negb run]. rewrite Hsvc, Hranked.
    cbn [length Nat.eqb run fst]. unfold recentFallback.
    rewrite (slice0_nonneg (sort compareRecent summaries) L) by lia.
    fold top. unfold tools.
    destruct openAiToolIndexFallback.
    - cbn [mathMax sub]. rewrite length_map.
      rewrite (slice0_nonneg _ (Z.max 0 (L - Z.of_nat (length top)))) by lia.
      replace (Z.to_nat (Z.max 0 (L - Z.of_nat (length top))))
        with (Z.to_nat L - length top)%nat by lia.
      fold tools. clearbody tools top.
      rewrite !slice0_all; [reflexivity | |];
        rewrite length_app, !length_map; lia.
    - rewrite !app_nil_r. clearbody top.
      rewrite !slice0_all; [reflexivity | |]; rewrite length_map; lia. }
  rewrite Hresp. unfold respond. cbn [results ids objectIds].
  clearbody tools.
  repeat split.
  - rewrite length_app, !length_map. lia.
  - intros Hne Hnil. apply app_eq_nil in Hnil as [Hnil _].
    apply map_eq_nil in Hnil.
    assert (Hlen : length top = 0%nat) by now rewrite Hnil.
    unfold top in Hlen. rewrite length_firstn in Hlen.
    assert (Hs : length (sort compareRecent summaries) = length summaries).
    { apply Permutation_length, sort_perm. }
    rewrite Hs in Hlen.
    destruct summaries; [congruence | cbn [length] in Hlen; lia].
Qed.

(** A limit that is not a number leaves nothing of any list, since
    [slice(0, NaN)] is empty: when the query is blank, and when the task
    service answers, the response has no id and no result. *)
Lemma handleSearch_nan_limit (params : SearchParams) (svc : TaskService) :
  effectiveLimit params = None ->
  (truthy (trim (queryVal params)) = false \/
   exists summaries, getTaskSummaries svc summaryFilter = Returns summaries) ->
  fst (run svc (handleSearch params)) = respond createResponse [] [].
Proof using Type.
  intros HL Hcase. unfold Search.handleSearch. cbv zeta. rewrite HL.
  destruct (truthy (trim (queryVal params))) eqn:Hq; cbn [negb].
  - destruct Hcase as [Hblank | [summaries Hsvc]]; [discriminate |].
    cbn [run]. rewrite Hsvc. unfold ranked. cbn [slice0 length Nat.eqb run fst].
    unfold recentFallback. cbn [slice0 map length].
    destruct openAiToolIndexFallback; reflexivity.
  - reflexivity.
Qed.

(** C3, where the baseline is empty.  With an empty query and the limit
    [many], which does not read as a number, the effective limit is
    [NaN], [slice(0, NaN)] leaves none of the 41 entries of the catalog,
    and [handleSearch] returns no id and no result, without a call to
    the task service; with the limit 10 the same query returns the first
    ten entries. *)
Theorem empty_query_without_baseline (svc : TaskService) :
  let withLimit v :=
    ParamObject {| arg_query := Some ""; arg_search := None; arg_q := None;
                   arg_limit := Some v |} in
  let response := fst (run svc (handleSearch (withLimit (LimitStr "many")))) in
  effectiveLimit (withLimit (LimitStr "many")) = None /\
  length toolCatalog = 41%nat /\
  results response = [] /\
  ids response = [] /\
  snd (run svc (handleSearch (withLimit (LimitStr "many")))) = [] /\
  length (results
            (fst (run svc (handleSearch (withLimit (LimitNum (Some 10)))))))
    = 10%nat.
Proof using Type.
  intros withLimit response.
  split; [reflexivity |]. split; [apply toolCatalog_length |].
  assert (H : response = respond createResponse [] []).
  { apply handleSearch_nan_limit; [reflexivity | now left]. }
  rewrite H. repeat split; vm_compute; reflexivity.
Qed.

(** C4, where the fallback is empty.  With the query [zzz] and the limit
    [many], which does not read as a number, [handleSearch] asks the
    task service once and returns no id and no result, whatever
    summaries the service has returned and whatever the Matching Engine
    says of them: [slice(0, NaN)] leaves nothing of the recent tasks nor
    of the catalog entries. *)
Theorem no_match_without_fallback (summaries : list TaskSummary) :
  let params :=
    ParamObject {| arg_query := Some "zzz"; arg_search := None; arg_q := None;
                   arg_limit := Some (LimitStr "many") |} in
  let outcome := run (answering summaries) (handleSearch params) in
  trim (queryVal params) = "zzz" /\
  effectiveLimit params = None /\
  snd outcome = [CallSummaries summaryFilter] /\
  results (fst outcome) = [] /\
  ids (fst outcome) = [].
Proof using Type.
  intros params outcome.
  split; [reflexivity |]. split; [reflexivity |].
  assert (H : fst outcome = respond createResponse [] []).
  { apply handleSearch_nan_limit; [reflexivity |].
    right. exists summaries. reflexivity. }
  rewrite H. split; [| split; reflexivity].
  unfold outcome, Search.handleSearch. cbv zeta.
  change (effectiveLimit params) with (@None Z).
  change (truthy (trim (queryVal params))) with true.
  cbn [negb run answering getTaskSummaries]. unfold ranked.
  cbn [slice0 length Nat.eqb run snd]. reflexivity.
Qed.
End Branches.

(** ** The theorems at the sample data *)

(** C1 at the query [invoice] with the limit 5: the two invoice tasks,
    the more recently updated first. *)
Lemma handleSearch_ranks_matches_witness :
  let params := Sample.sampleParams "invoice" 5 in
  let response :=
    fst (run Sample.sampleService
           (Search.handleSearch Sample.sampleContent Sample.sampleMatch true params)) in
  exists sorted : list TaskSummary,
    Permutation sorted
      (List.filter (matched Sample.sampleMatch "invoice") Sample.sampleSummaries) /\
    StronglySorted (rankedBefore Sample.sampleMatch "invoice") sorted /\
    map r_t (ranked Sample.sampleMatch "invoice" (Some 5) Sample.sampleSummaries)
      = slice0 sorted (Some 5) /\
    (forall L, Some 5 = Some L ->
       1 <= L <= 50 /\ slice0 sorted (Some 5) = firstn (Z.to_nat L) sorted) /\
    (slice0 sorted (Some 5) <> [] ->
       results response = map taskResult (slice0 sorted (Some 5)) /\
       ids response = map sum_id (slice0 sorted (Some 5)) /\
       objectIds response = ids response).
Proof.
  exact (handleSearch_ranks_matches Sample.sampleContent Sample.sampleMatch true
           (Sample.sampleParams "invoice" 5) Sample.sampleService
           Sample.sampleSummaries eq_refl eq_refl eq_refl eq_refl).
Defined.

(** The baseline at a query of three blanks with the limit 5. *)
Lemma handleSearch_empty_query_witness :
  let params := Sample.sampleParams "   " 5 in
  exists response : SearchResponse (list string),
    Search.handleSearch Sample.sampleContent Sample.sampleMatch true params
      = Ret response /\
    (forall svc,
       run svc (Search.handleSearch Sample.sampleContent Sample.sampleMatch true params)
       = (response, [])) /\
    results response =
      map toolBrief
        (firstn (Z.to_nat (Z.min 5 (Z.of_nat (length toolCatalog)))) toolCatalog) /\
    ids response =
      map tool_id
        (firstn (Z.to_nat (Z.min 5 (Z.of_nat (length toolCatalog)))) toolCatalog) /\
    objectIds response = ids response /\
    Z.of_nat (length (results response)) = Z.min 5 (Z.of_nat (length toolCatalog)) /\
    results response <> [].
Proof.
  exact (handleSearch_empty_query Sample.sampleContent Sample.sampleMatch true
           (Sample.sampleParams "   " 5) 5 eq_refl eq_refl eq_refl).
Defined.

(** The recency fallback at the query [fetch] with the limit 5: no task
    of the sample is about fetching, so the three tasks come by
    descending date, followed by the catalog entry that matches
    [fetch]. *)
Lemma handleSearch_no_match_witness :
  let params := Sample.sampleParams "fetch" 5 in
  let response :=
    fst (run Sample.sampleService
           (Search.handleSearch Sample.sampleContent Sample.sampleMatch true params)) in
  exists recent : list TaskSummary,
    Permutation recent Sample.sampleSummaries /\
    StronglySorted recentBefore recent /\
    let top := firstn (Z.to_nat 5) recent in
    let tools :=
      firstn (Z.to_nat 5 - length top)
        (List.filter (fun t => toolCatalogMatches t "fetch") toolCatalog) in
    results response = (map taskResult top ++ map toolResult' tools)%list /\
    ids response = (map sum_id top ++ map tool_id tools)%list /\
    objectIds response = ids response /\
    (length (results response) <= Z.to_nat 5)%nat /\
    (Sample.sampleSummaries <> [] -> results response <> []).
Proof.
  exact (handleSearch_no_match Sample.sampleContent Sample.sampleMatch true
           (Sample.sampleParams "fetch" 5) Sample.sampleService
           Sample.sampleSummaries 5 eq_refl eq_refl eq_refl eq_refl eq_refl eq_refl).
Defined.

(** The same search computed: the tasks by descending date, the one
    without a date last, then the entry of the catalog. *)
Example search_fetch :
  ids (fst (run Sample.sampleService
              (Search.handleSearch Sample.sampleContent Sample.sampleMatch true
                 (Sample.sampleParams "fetch" 5))))
  = ["t2"; "t1"; "t3"; "tool:fetch"].
Proof. vm_compute. reflexivity. Qed.

(** The scenario of the specification: the query [invoice] with the
    limit 5 against three tasks returns the two invoice tasks, the more
    recently updated first. *)
Example search_invoice :
  ids (fst (run Sample.sampleService
              (Search.handleSearch Sample.sampleContent Sample.sampleMatch true
                 (Sample.sampleParams "invoice" 5))))
  = ["t2"; "t1"].
Proof. vm_compute. reflexivity. Qed.

(** A limit outside the range is clamped, a limit that is not a number
    is not. *)
Example effectiveLimit_samples :
  effectiveLimit (Sample.sampleParams "x" 0) = Some 1 /\
  effectiveLimit (Sample.sampleParams "x" (-3)) = Some 1 /\
  effectiveLimit (Sample.sampleParams "x" 500) = Some 50 /\
  effectiveLimit (ParamString "x") = Some 10 /\
  effectiveLimit
    (ParamObject {| arg_query := Some "x"; arg_search := None; arg_q := None;
                    arg_limit := Some (LimitStr "7 items") |}) = Some 7 /\
  effectiveLimit
    (ParamObject {| arg_query := Some "x"; arg_search := None; arg_q := None;
                    arg_limit := Some (LimitStr "many") |}) = None.
Proof. repeat split; reflexivity. Qed.

End SearchFacts.

(* ================================================================== *)
(** * Properties of the fetch tool                                     *)
(* ================================================================== *)

Module FetchFacts.
Import JS Catalog Backend Fetch Spec.
Local Open Scope string_scope.

Lemma startsWith_truthy (id p : string) :
  truthy p = true -> startsWith id p = true -> truthy id = true.
Proof.
  destruct p as [| c p]; [discriminate |].
  destruct id as [| d id]; [discriminate | reflexivity].
Qed.

(** The ids of the catalog are pairwise distinct: looking an entry up by
    its id finds that entry. *)
Lemma find_catalog_entry (entry : ToolCatalogEntry) :
  In entry toolCatalog ->
  List.find (fun e => String.eqb (tool_id e) (tool_id entry)) toolCatalog = Some entry.
Proof.
  revert entry. apply List.Forall_forall. unfold toolCatalog.
  repeat (constructor; [vm_compute; reflexivity |]). constructor.
Qed.

Section Handler.
Context {Content Failure : Type}.
Variable createResponse : DocumentCore -> Content.
Variable createErrorResponse : string -> option string -> Failure.

Abbreviation handleFetch := (handleFetch createResponse createErrorResponse).
Abbreviation fetchTool := (fetchTool createResponse createErrorResponse).
Abbreviation taskDocument := (taskDocument createResponse).

(** C6.  For an id that begins with [tool:], [handleFetch] makes no
    call to the task service; it returns the document of the catalog
    entry of that id (id, title, the text assembled from title,
    description and reference, url, metadata and the entry as [raw])
    when there is one, and the error response [Unknown tool id]
    otherwise.  In particular the fetch of [tool:search] returns the
    document of the search tool under every task service, the id being
    given in an object or as a bare string. *)
Theorem handleFetch_tool (params : FetchParams) (id : string) :
  idOf params = Some id ->
  startsWith id "tool:" = true ->
  handleFetch params = Ret (fetchTool id) /\
  (forall svc, run svc (handleFetch params) = (fetchTool id, [])) /\
  (forall entry, In entry toolCatalog -> tool_id entry = id ->
     exists d,
       fetchTool id = Document d /\
       doc_id d = id /\
       doc_title d = tool_title entry /\
       doc_text d = tool_title entry ++ newline ++ newline ++
                    tool_description entry ++ newline ++ newline ++
                    "Reference: " ++ tool_url entry /\
       doc_url d = tool_url entry /\
       doc_metadata d =
         [("name", Some (tool_name entry)); ("category", Some "tool")] /\
       doc_raw d = RawTool entry) /\
  ((forall entry, In entry toolCatalog -> tool_id entry <> id) ->
     fetchTool id =
     Failed (createErrorResponse ("Unknown tool id: " ++ id) None)) /\
  (forall svc, exists d,
     run svc (handleFetch (IdObject (Some "tool:search"))) = (Document d, []) /\
     run svc (handleFetch (IdString "tool:search")) = (Document d, []) /\
     doc_id d = "tool:search" /\
     doc_title d = "Search" /\
     doc_text d =
       "Search" ++ newline ++ newline ++
       "Universal retrieval: search by keywords and return top-k IDs." ++
       newline ++ newline ++
       "Reference: https://github.com/TaazKareem/clickup-mcp-server" /\
     doc_url d = "https://github.com/TaazKareem/clickup-mcp-server" /\
     doc_metadata d = [("name", Some "search"); ("category", Some "tool")]).
Proof using Type.
  intros Hid Htool.
  assert (Htruthy : truthy id = true)
    by (eapply startsWith_truthy; [| exact Htool]; reflexivity).
  assert (Hrun : handleFetch params = Ret (fetchTool id)).
  { unfold Fetch.handleFetch. now rewrite Hid, Htruthy, Htool. }
  split; [exact Hrun |]. split; [intros svc; now rewrite Hrun |].
  split; [| split].
  - intros entry Hin <-. unfold Fetch.fetchTool.
    rewrite (find_catalog_entry entry Hin).
    eexists. split; [reflexivity |]. repeat split; reflexivity.
  - intros Hnone. unfold Fetch.fetchTool.
    destruct (List.find (fun e => String.eqb (tool_id e) id) toolCatalog)
      as [entry |] eqn:E; [| reflexivity].
    apply find_some in E as [Hin Heq].
    apply String.eqb_eq in Heq. now destruct (Hnone entry Hin).
  - intros svc. eexists. repeat split.
Qed.

(** C7.  For a task the task service returns for an id, the text of the
    document is the description or body, the line [Status: ...], the
    line [List: ...] and the url, in that order, one per line, a
    component that is empty being left out; the metadata carry the
    status and the list, and [raw] is the task as returned. *)
Theorem handleFetch_task
    (params : FetchParams) (id : string) (svc : TaskService) (task : Task) :
  idOf params = Some id ->
  truthy id = true ->
  startsWith id "tool:" = false ->
  getTask svc id = Returns task ->
  exists d,
    run svc (handleFetch params) = (Document d, [CallTask id]) /\
    doc_text d =
      join newline
        (List.filter truthy
           [ bodyOf task;
             if truthy (statusOf task) then "Status: " ++ statusOf task else "";
             if truthy (listOf task) then "List: " ++ listOf task else "";
             urlOf task ]) /\
    doc_id d = task_id task /\
    doc_title d = task_name task /\
    doc_url d = urlOf task /\
    doc_metadata d =
      [("status", Some (statusOf task));
       ("list", if truthy (listOf task) then Some (listOf task) else None)] /\
    doc_raw d = RawTask task.
Proof using Type.
  intros Hid Htruthy Htool Hsvc.
  exists (taskDocument task). split.
  { unfold Fetch.handleFetch. rewrite Hid, Htruthy, Htool.
    cbn [negb run]. now rewrite Hsvc. }
  unfold Fetch.taskDocument, document, bodyOf, statusOf, listOf, urlOf.
  cbn [doc_text doc_id doc_title doc_url doc_metadata doc_raw
       core_id core_title core_text core_url core_metadata].
  destruct task as [tid tname tstatus tlist turl tbody tdesc].
  cbn [task_id task_name task_status task_list_name task_url
       task_text_content task_description].
  repeat split;
    destruct tbody as [[| ? ?] |]; destruct tdesc as [[| ? ?] |];
    destruct tstatus as [[| ? ?] |]; destruct tlist as [[| ? ?] |];
    destruct turl as [[| ? ?] |]; reflexivity.
Qed.
End Handler.

(** ** The theorems at the sample data *)

(** C6 at the id [tool:search]. *)
Lemma handleFetch_tool_witness :
  let params := IdObject (Some "tool:search") in
  let fetched := Fetch.fetchTool Sample.sampleDocument Sample.sampleError "tool:search" in
  Fetch.handleFetch Sample.sampleDocument Sample.sampleError params = Ret fetched /\
  (forall svc,
     run svc (Fetch.handleFetch Sample.sampleDocument Sample.sampleError params)
     = (fetched, [])) /\
  (forall entry, In entry toolCatalog -> tool_id entry = "tool:search" ->
     exists d,
       fetched = Document d /\
       doc_id d = "tool:search" /\
       doc_title d = tool_title entry /\
       doc_text d = tool_title entry ++ newline ++ newline ++
                    tool_description entry ++ newline ++ newline ++
                    "Reference: " ++ tool_url entry /\
       doc_url d = tool_url entry /\
       doc_metadata d =
         [("name", Some (tool_name entry)); ("category", Some "tool")] /\
       doc_raw d = RawTool entry) /\
  ((forall entry, In entry toolCatalog -> tool_id entry <> "tool:search") ->
     fetched = Failed (Sample.sampleError ("Unknown tool id: " ++ "tool:search") None)) /\
  (forall svc, exists d,
     run svc (Fetch.handleFetch Sample.sampleDocument Sample.sampleError
                (IdObject (Some "tool:search"))) = (Document d, []) /\
     run svc (Fetch.handleFetch Sample.sampleDocument Sample.sampleError
                (IdString "tool:search")) = (Document d, []) /\
     doc_id d = "tool:search" /\
     doc_title d = "Search" /\
     doc_text d =
       "Search" ++ newline ++ newline ++
       "Universal retrieval: search by keywords and return top-k IDs." ++
       newline ++ newline ++
       "Reference: https://github.com/TaazKareem/clickup-mcp-server" /\
     doc_url d = "https://github.com/TaazKareem/clickup-mcp-server" /\
     doc_metadata d = [("name", Some "search"); ("category", Some "tool")]).
Proof.
  exact (handleFetch_tool Sample.sampleDocument Sample.sampleError
           (IdObject (Some "tool:search")) "tool:search" eq_refl eq_refl).
Defined.

(** C7 at the task [t1]. *)
Lemma handleFetch_task_witness :
  exists d,
    run Sample.sampleService
      (Fetch.handleFetch Sample.sampleDocument Sample.sampleError (IdObject (Some "t1")))
    = (Document d, [CallTask "t1"]) /\
    doc_text d =
      join newline
        (List.filter truthy
           [ bodyOf Sample.sampleTask;
             if truthy (statusOf Sample.sampleTask)
             then "Status: " ++ statusOf Sample.sampleTask else "";
             if truthy (listOf Sample.sampleTask)
             then "List: " ++ listOf Sample.sampleTask else "";
             urlOf Sample.sampleTask ]) /\
    doc_id d = task_id Sample.sampleTask /\
    doc_title d = task_name Sample.sampleTask /\
    doc_url d = urlOf Sample.sampleTask /\
    doc_metadata d =
      [("status", Some (statusOf Sample.sampleTask));
       ("list", if truthy (listOf Sample.sampleTask)
                then Some (listOf Sample.sampleTask) else None)] /\
    doc_raw d = RawTask Sample.sampleTask.
Proof.
  exact (handleFetch_task Sample.sampleDocument Sample.sampleError
           (IdObject (Some "t1")) "t1" Sample.sampleService Sample.sampleTask
           eq_refl eq_refl eq_refl eq_refl).
Defined.

(** The document of [tool:search] does not depend on the task service. *)
Example fetch_tool_search (svc : TaskService) :
  exists d,
    run svc (Fetch.handleFetch Sample.sampleDocument Sample.sampleError
               (IdObject (Some "tool:search")))
    = (Document d, []) /\
    doc_id d = "tool:search" /\ doc_title d = "Search" /\
    doc_text d =
      "Search" ++ newline ++ newline ++
      "Universal retrieval: search by keywords and return top-k IDs." ++
      newline ++ newline ++
      "Reference: https://github.com/TaazKareem/clickup-mcp-server".
Proof. eexists. repeat split. Qed.

End FetchFacts.

(* ================================================================== *)
(** * Properties of the HTTP server                                    *)
(* ================================================================== *)

Module ServerFacts.
Import JS Catalog Backend Server Spec JSFacts.
Local Open Scope string_scope.

(** ** Accept normalisation *)

Lemma dedupe_In (x : string) (l seen : list string) :
  In x (dedupe seen l) <-> In x l /\ ~ In x seen.
Proof.
  revert seen. induction l as [| y l IH]; intros seen; simpl.
  - tauto.
  - destruct (existsb (String.eqb y) seen) eqn:E.
    + apply existsb_exists in E as (z & Hz & Hyz).
      apply String.eqb_eq in Hyz. subst z.
      rewrite IH. split; [tauto |].
      intros [[-> | H] Hn]; [contradiction | tauto].
    + assert (Hy : ~ In y seen).
      { intros Hin. apply Bool.not_true_iff_false in E. apply E.
        apply existsb_exists. exists y. split; [exact Hin | apply String.eqb_refl]. }
      simpl. rewrite IH. simpl. split.
      * intros [-> | [H Hn]]; [tauto |]. split; [tauto |].
        intros Hin. apply Hn. now right.
      * intros [[-> | H] Hn]; [now left |].
        destruct (String.string_dec y x) as [-> | Hne]; [now left |].
        right. split; [exact H |]. intros [Heq | Hin]; [congruence | contradiction].
Qed.

Lemma dedupe_NoDup (l seen : list string) : List.NoDup (dedupe seen l).
Proof.
  revert seen. induction l as [| y l IH]; intros seen; simpl.
  - constructor.
  - destruct (existsb (String.eqb y) seen); [apply IH |].
    constructor; [| apply IH].
    rewrite dedupe_In. intros [_ Hn]. apply Hn. now left.
Qed.

Lemma dedupe_Forall (P : string -> Prop) (l seen : list string) :
  Forall P l -> Forall P (dedupe seen l).
Proof.
  intros H. apply List.Forall_forall. intros x Hx.
  apply dedupe_In in Hx as [Hx _].
  rewrite List.Forall_forall in H. now apply H.
Qed.

Lemma existsb_dedupe (f : string -> bool) (l : list string) :
  existsb f (dedupe [] l) = existsb f l.
Proof.
  apply Bool.eq_true_iff_eq. rewrite !existsb_exists.
  split; intros (x & Hx & Hf); exists x; (split; [| exact Hf]).
  - now apply dedupe_In in Hx.
  - apply dedupe_In. split; [exact Hx | intros []].
Qed.

Lemma acceptParts_tokens (original : string) :
  Forall (fun p => acceptToken p = true) (acceptParts original).
Proof.
  unfold acceptParts. apply List.Forall_forall. intros p Hp.
  apply filter_In in Hp as [Hp Htruthy].
  apply in_map_iff in Hp as (x & <- & Hx).
  pose proof (split_pieces_free isComma original) as Hfree.
  rewrite List.Forall_forall in Hfree. specialize (Hfree x Hx).
  unfold acceptToken. rewrite Htruthy, trim_idem, String.eqb_refl.
  unfold trim. rewrite noneOf_trimEnd; [reflexivity |].
  now apply noneOf_trimStart.
Qed.

Lemma split_join (p : string) (ps : list string) :
  Forall (fun x => noneOf isComma x = true) (p :: ps) ->
  split isComma (join ", " (p :: ps)) = p :: map (String " ") ps.
Proof.
  revert p. induction ps as [| q ps IH]; intros p H.
  - inversion H; subst. now apply split_free.
  - inversion H as [| ? ? Hp Hrest]; subst.
    change (join ", " (p :: q :: ps))
      with (p ++ String "," (String " " (join ", " (q :: ps)))).
    rewrite split_free_app by (exact Hp || reflexivity).
    cbn [split]. change (isComma " ") with false. cbv iota.
    now rewrite (IH q Hrest).
Qed.

Lemma acceptToken_parts (p : string) :
  acceptToken p = true ->
  truthy p = true /\ noneOf isComma p = true /\ trim p = p.
Proof.
  unfold acceptToken. intros H.
  apply andb_prop in H as [H Htrim]. apply andb_prop in H as [Ht Hc].
  apply String.eqb_eq in Htrim. auto.
Qed.

Lemma acceptParts_join (ps : list string) :
  Forall (fun p => acceptToken p = true) ps ->
  acceptParts (join ", " ps) = ps.
Proof.
  intros H. destruct ps as [| p ps]; [reflexivity |].
  unfold acceptParts. rewrite split_join.
  - inversion H as [| ? ? Hp Hps]; subst.
    apply acceptToken_parts in Hp as (Ht & _ & Htrim).
    cbn [map List.filter]. rewrite Htrim, Ht. f_equal.
    clear -Hps. induction Hps as [| q qs Hq _ IH]; [reflexivity |].
    apply acceptToken_parts in Hq as (Ht & _ & Htrim).
    cbn [map List.filter].
    change (trim (String " " q)) with (trim q).
    now rewrite Htrim, Ht, IH.
  - eapply List.Forall_impl; [| exact H].
    intros x Hx. now apply acceptToken_parts in Hx.
Qed.

Lemma orStr_default (accept : option string) :
  default "" (orStr accept (Some "")) = default "" accept.
Proof. now destruct accept as [[| c s] |]. Qed.

(** The middleware on [/mcp], branch by branch. *)
Lemma normalizeAccept_mcp (accept : option string) :
  let parts := acceptTokens accept in
  let parts1 :=
    if existsb (fun p => includes p "application/json") parts
    then parts else (parts ++ ["application/json"])%list in
  let parts2 :=
    if existsb (fun p => includes p "text/event-stream") parts1
    then parts1 else (parts1 ++ ["text/event-stream"])%list in
  normalizeAccept "/mcp" accept =
  if existsb (fun p => includes p "application/json") parts &&
     existsb (fun p => includes p "text/event-stream") parts1
  then accept
  else Some (join ", " (dedupe [] parts2)).
Proof.
  intros parts parts1 parts2. unfold normalizeAccept.
  change (String.eqb "/mcp" "/mcp") with true. cbv iota.
  rewrite orStr_default. fold (acceptTokens accept). fold parts.
  subst parts2 parts1.
  destruct (existsb (fun p => includes p "application/json") parts); cbn [negb];
    cbv iota beta;
    match goal with
    | |- context [existsb (fun p => includes p "text/event-stream") ?l] =>
        destruct (existsb (fun p => includes p "text/event-stream") l)
    end; reflexivity.
Qed.

Lemma acceptParts_within (original p : string) :
  In p (acceptParts original) ->
  exists pre post, original = (pre ++ p ++ post)%string.
Proof.
  unfold acceptParts. intros H.
  apply filter_In in H as [H _].
  apply in_map_iff in H as (piece & <- & Hpiece).
  apply split_within in Hpiece as (a & b & ->).
  destruct (trim_within piece) as (c & d & Hd).
  exists (a ++ c)%string, (d ++ b)%string.
  rewrite Hd at 1. now rewrite !append_assoc.
Qed.

(** What a token of the header includes, the header includes. *)
Lemma header_includes (accept : option string) (x : string) :
  existsb (fun p => includes p x) (acceptTokens accept) = true ->
  includes (default "" accept) x = true.
Proof.
  intros H. apply existsb_exists in H as (p & Hp & Hx).
  apply acceptParts_within in Hp as (pre & post & ->).
  now apply includes_within.
Qed.

(** C9, as the code has it.  On [/mcp] the header after the normalisation contains
    [application/json] and [text/event-stream], each within one of its
    tokens, of which it may be a part only; no token occurs in it more
    often than in the header before, unless it occurs once; every token
    of the header before is still there; and the normalisation leaves
    its own output unchanged. *)
Theorem normalizeAccept_idempotent (accept : option string) :
  let out := normalizeAccept "/mcp" accept in
  (includes (default "" out) "application/json" = true /\
   includes (default "" out) "text/event-stream" = true) /\
  existsb (fun p => includes p "application/json") (acceptTokens out) = true /\
  existsb (fun p => includes p "text/event-stream") (acceptTokens out) = true /\
  (forall t : string,
     (count_occ String.string_dec (acceptTokens out) t
      <= Nat.max 1 (count_occ String.string_dec (acceptTokens accept) t))%nat) /\
  (forall t : string, In t (acceptTokens accept) -> In t (acceptTokens out)) /\
  normalizeAccept "/mcp" out = out.
Proof.
  intros out.
  cut (existsb (fun p => includes p "application/json") (acceptTokens out) = true /\
       existsb (fun p => includes p "text/event-stream") (acceptTokens out) = true /\
       (forall t : string,
          (count_occ String.string_dec (acceptTokens out) t
           <= Nat.max 1 (count_occ String.string_dec (acceptTokens accept) t))%nat) /\
       (forall t : string, In t (acceptTokens accept) -> In t (acceptTokens out)) /\
       normalizeAccept "/mcp" out = out).
  { intros (Hj & Hs & Hrest).
    split; [split; now apply header_includes |]. auto. }
  subst out. rewrite (normalizeAccept_mcp accept). cbv zeta.
  set (parts := acceptTokens accept).
  set (parts1 := if existsb (fun p => includes p "application/json") parts
                 then parts else (parts ++ ["application/json"])%list).
  set (parts2 := if existsb (fun p => includes p "text/event-stream") parts1
                 then parts1 else (parts1 ++ ["text/event-stream"])%list).
  assert (Hjson1 : existsb (fun p => includes p "application/json") parts1 = true).
  { subst parts1.
    destruct (existsb (fun p => includes p "application/json") parts) eqn:E;
      [exact E |].
    rewrite existsb_app. cbn. apply orb_true_r. }
  assert (Hjson2 : existsb (fun p => includes p "application/json") parts2 = true).
  { subst parts2.
    destruct (existsb (fun p => includes p "text/event-stream") parts1);
      [exact Hjson1 |].
    rewrite existsb_app, Hjson1. reflexivity. }
  assert (Hsse2 : existsb (fun p => includes p "text/event-stream") parts2 = true).
  { subst parts2.
    destruct (existsb (fun p => includes p "text/event-stream") parts1) eqn:E;
      [exact E |].
    rewrite existsb_app. cbn. apply orb_true_r. }
  assert (Htok2 : Forall (fun p => acceptToken p = true) parts2).
  { assert (Htok1 : Forall (fun p => acceptToken p = true) parts1).
    { subst parts1.
      destruct (existsb (fun p => includes p "application/json") parts);
        [apply acceptParts_tokens |].
      apply Forall_app. split; [apply acceptParts_tokens |].
      repeat constructor. }
    subst parts2.
    destruct (existsb (fun p => includes p "text/event-stream") parts1);
      [exact Htok1 |].
    apply Forall_app. split; [exact Htok1 | repeat constructor]. }
  assert (Hin2 : forall t, In t parts -> In t parts2).
  { intros t Ht. subst parts2 parts1.
    destruct (existsb (fun p => includes p "application/json") parts);
      match goal with
      | |- context [existsb (fun p => includes p "text/event-stream") ?l] =>
          destruct (existsb (fun p => includes p "text/event-stream") l)
      end; rewrite ?in_app_iff; tauto. }
  destruct (existsb (fun p => includes p "application/json") parts &&
            existsb (fun p => includes p "text/event-stream") parts1) eqn:Hboth.
  - (* nothing was missing: the header is left as it is *)
    cbv iota.
    apply andb_prop in Hboth as [Hj Hs].
    assert (E1 : parts1 = parts) by (subst parts1; now rewrite Hj).
    rewrite E1 in Hs. fold parts.
    repeat split; try assumption.
    + intros t. lia.
    + intros t Ht. exact Ht.
    + rewrite (normalizeAccept_mcp accept). cbv zeta. fold parts.
      rewrite Hj. cbv iota. now rewrite Hs.
  - (* a type was added: the header is rebuilt from the set of the parts *)
    cbv iota.
    set (D := dedupe [] parts2).
    assert (HtokD : Forall (fun p => acceptToken p = true) D)
      by now apply dedupe_Forall.
    assert (Hout : acceptTokens (Some (join ", " D)) = D)
      by (unfold acceptTokens; cbn [default]; now apply acceptParts_join).
    rewrite Hout.
    assert (HjD : existsb (fun p => includes p "application/json") D = true)
      by (subst D; now rewrite existsb_dedupe).
    assert (HsD : existsb (fun p => includes p "text/event-stream") D = true)
      by (subst D; now rewrite existsb_dedupe).
    repeat split; try assumption.
    + intros t.
      pose proof (dedupe_NoDup parts2 []) as Hnd. fold D in Hnd.
      rewrite (List.NoDup_count_occ String.string_dec) in Hnd.
      specialize (Hnd t). lia.
    + intros t Ht. subst D. apply dedupe_In. split; [now apply Hin2 | intros []].
    + rewrite (normalizeAccept_mcp (Some (join ", " D))). cbv zeta.
      rewrite Hout, HjD. cbv iota. now rewrite HsD.
Qed.

(** C9, as the specification has it, fails: the middleware looks for a
    part that includes the media type, not for the media type as a part.
    Each part of the header [application/json-seq, text/event-streaming]
    includes one of the two types, so the normalisation leaves the
    header as it is, and neither [application/json] nor
    [text/event-stream] is a token of it. *)
Lemma normalizeAccept_tokens_not_exact :
  let accept := Some "application/json-seq, text/event-streaming"%string in
  let out := normalizeAccept "/mcp" accept in
  out = accept /\
  acceptTokens out = ["application/json-seq"; "text/event-streaming"]%string /\
  hasToken out "application/json" = false /\
  hasToken out "text/event-stream" = false.
Proof. repeat split; vm_compute; reflexivity. Qed.

(** The normalisation touches the requests to [/mcp] only. *)
Lemma normalizeAccept_other (path : string) (accept : option string) :
  path <> "/mcp" -> normalizeAccept path accept = accept.
Proof.
  intros H. unfold normalizeAccept.
  destruct (String.eqb_spec path "/mcp"); [contradiction | reflexivity].
Qed.

Example normalizeAccept_samples :
  normalizeAccept "/mcp" None = Some "application/json, text/event-stream" /\
  normalizeAccept "/mcp" (Some "application/json")
    = Some "application/json, text/event-stream" /\
  normalizeAccept "/mcp" (Some "text/event-stream , text/html,text/html")
    = Some "text/event-stream, text/html, application/json" /\
  normalizeAccept "/mcp" (Some "text/event-stream;q=0.5,application/json")
    = Some "text/event-stream;q=0.5,application/json" /\
  normalizeAccept "/sse" (Some "text/html") = Some "text/html".
Proof. repeat split; reflexivity. Qed.

(** ** The session routes *)

Section Sessions.
Context {Transport Content Failure : Type}.
Variable createResponse : list Search.ResultRef -> Content.
Variable createDocument : Fetch.DocumentCore -> Content.
Variable createErrorResponse : string -> option string -> Failure.
Variable isNameMatch : string -> string -> MatchResult.
Variable openAiToolIndexFallback : bool.

Abbreviation handleSessionRequest :=
  (handleSessionRequest (Transport := Transport) createResponse createDocument
     createErrorResponse isNameMatch openAiToolIndexFallback).

Lemma getMember_unknown (streamable : gmap string Transport) (sid : string) :
  streamable !! sid = None -> ~ In sid objectPrototype ->
  getMember streamable sid = None.
Proof using Type.
  intros Hnone Hproto. unfold getMember. rewrite Hnone.
  destruct (existsb (String.eqb sid) objectPrototype) eqn:E; [| reflexivity].
  apply existsb_exists in E as (x & Hx & Heq).
  apply String.eqb_eq in Heq. subst x. contradiction.
Qed.

Lemma getMember_stored (streamable : gmap string Transport) (sid : string)
    (t : Transport) :
  streamable !! sid = Some t -> getMember streamable sid = Some (Stored t).
Proof using Type. intros H. unfold getMember. now rewrite H. Qed.

(** A [POST /mcp] without a session id opens a session; with the id of
    a stored transport it is handed to that transport. *)
Lemma postMcp_initialize (streamable : gmap string Transport) (req : Request) :
  mcp_session_id req = None -> postMcp streamable req = NewSession.
Proof using Type. intros H. unfold postMcp. now rewrite H. Qed.

Lemma postMcp_resume (streamable : gmap string Transport) (req : Request)
    (sid : string) (t : Transport) :
  mcp_session_id req = Some sid -> truthy sid = true ->
  streamable !! sid = Some t ->
  postMcp streamable req = HandleRequest t.
Proof using Type.
  intros Hsid Ht Hget. unfold postMcp.
  now rewrite Hsid, Ht, (getMember_stored _ _ _ Hget).
Qed.

(** A [POST /mcp] with a session id that is neither stored nor the name
    of a member of [Object.prototype] is rejected. *)
Lemma postMcp_unknown_session (streamable : gmap string Transport)
    (req : Request) (sid : string) :
  mcp_session_id req = Some sid -> truthy sid = true ->
  streamable !! sid = None -> ~ In sid objectPrototype ->
  postMcp streamable req =
  Json 400 (RpcError (-32000) "Bad Request: No valid session ID provided").
Proof using Type.
  intros Hsid Ht Hnone Hproto. unfold postMcp.
  now rewrite Hsid, Ht, (getMember_unknown _ _ Hnone Hproto).
Qed.

(** A [GET] or [DELETE] on [/mcp] that is not a forwarded alias, whose
    session id is missing, empty, or neither stored nor the name of a
    member of [Object.prototype], is rejected. *)
Lemma handleSessionRequest_unknown_session
    (streamable : gmap string Transport) (req : Request) :
  yieldsSearch req = false -> yieldsFetch req = false ->
  (mcp_session_id req = None \/
   mcp_session_id req = Some "" \/
   exists sid, mcp_session_id req = Some sid /\
               streamable !! sid = None /\ ~ In sid objectPrototype) ->
  handleSessionRequest streamable req =
  Ret (Json 400
         (RpcError (-32000) "Bad Request: Mcp-Session-Id header is required")).
Proof using Type.
  intros Hs Hf H. unfold Server.handleSessionRequest. rewrite Hs, Hf.
  destruct H as [-> | [-> | (sid & -> & Hnone & Hproto)]]; try reflexivity.
  destruct (truthy sid); [| reflexivity].
  now rewrite (getMember_unknown _ _ Hnone Hproto).
Qed.

(** A session that was closed is unknown afterwards. *)
Lemma postMcp_after_close (streamable : gmap string Transport)
    (req : Request) (sid : string) :
  mcp_session_id req = Some sid -> truthy sid = true ->
  ~ In sid objectPrototype ->
  postMcp (sessionClosed (Some sid) streamable) req =
  Json 400 (RpcError (-32000) "Bad Request: No valid session ID provided").
Proof using Type.
  intros Hsid Ht Hproto.
  apply (postMcp_unknown_session _ _ sid); try assumption.
  unfold sessionClosed. rewrite Ht. apply lookup_delete_eq.
Qed.

Lemma postMcp_after_initialize (streamable : gmap string Transport)
    (req : Request) (sid : string) (t : Transport) :
  mcp_session_id req = Some sid -> truthy sid = true ->
  postMcp (sessionInitialized sid t streamable) req = HandleRequest t.
Proof using Type.
  intros Hsid Ht. apply (postMcp_resume _ _ sid); try assumption.
  unfold sessionInitialized. apply lookup_insert_eq.
Qed.

(** C10, at the session id [constructor].  No session is stored; the
    lookup in the table finds the member [constructor] inherited from
    [Object.prototype], the guard of the route takes it for a
    transport, and the call of [handleRequest] on it throws: [POST /mcp]
    answers 500 with the code -32603 and the handler of [GET] and
    [DELETE] lets the exception escape, where the specification has 400 with
    the code -32000. *)
Theorem session_id_constructor :
  postMcp (Transport := Transport) ∅ (mcpRequest (Some "constructor")) =
    Json 500 (RpcError (-32603) "Internal server error") /\
  yieldsSearch (mcpRequest (Some "constructor")) = false /\
  yieldsFetch (mcpRequest (Some "constructor")) = false /\
  handleSessionRequest ∅ (mcpRequest (Some "constructor")) =
    Ret (Uncaught "transport.handleRequest is not a function").
Proof using Type.
  unfold postMcp, Server.handleSessionRequest, getMember.
  cbn [mcp_session_id mcpRequest]. rewrite lookup_empty.
  repeat split; reflexivity.
Qed.
End Sessions.

(** ** The limit and the error path *)

Lemma run_bind {A B : Type} (svc : TaskService) (p : Prog A) (f : A -> Prog B) :
  run svc (bind p f) =
  let (a, calls) := run svc p in
  let (b, calls') := run svc (f a) in
  (b, (calls ++ calls')%list).
Proof.
  induction p as [a | o k IH | i k IH]; simpl.
  - now destruct (run svc (f a)).
  - rewrite IH. destruct (run svc (k (getTaskSummaries svc o))) as [a calls].
    now destruct (run svc (f a)).
  - rewrite IH. destruct (run svc (k (getTask svc i))) as [a calls].
    now destruct (run svc (f a)).
Qed.

Lemma slice0_le {A : Type} (l : list A) (k : Z) :
  (0 <= k)%Z -> (length (slice0 l (Some k)) <= Z.to_nat k)%nat.
Proof.
  intros Hk. rewrite slice0_nonneg by exact Hk.
  rewrite length_firstn. lia.
Qed.

Section Limits.
Context {Transport Content : Type}.
Variable createResponse : list Search.ResultRef -> Content.
Variable isNameMatch : string -> string -> MatchResult.
Variable openAiToolIndexFallback : bool.

Abbreviation handleSearch :=
  (Search.handleSearch createResponse isNameMatch openAiToolIndexFallback).
Abbreviation getSearch :=
  (getSearch (Transport := Transport) createResponse isNameMatch
     openAiToolIndexFallback).

(** When the task service answers, or is not asked, the results are at
    most as many as the effective limit. *)
Lemma handleSearch_within_limit
    (params : Search.SearchParams) (svc : TaskService) (L : Z) :
  Search.effectiveLimit params = Some L ->
  (truthy (trim (Search.queryVal params)) = false \/
   exists summaries, getTaskSummaries svc Search.summaryFilter = Returns summaries) ->
  (length (Search.results (fst (run svc (handleSearch params)))) <= Z.to_nat L)%nat.
Proof using Type.
  intros HL H.
  pose proof (SearchFacts.effectiveLimit_range params L HL) as HR.
  unfold Search.handleSearch. cbv zeta. rewrite HL.
  destruct (truthy (trim (Search.queryVal params))) eqn:Hq; cbn [negb run].
  - destruct H as [H | (summaries & Hsvc)]; [discriminate |].
    rewrite Hsvc.
    destruct (Search.ranked isNameMatch (trim (Search.queryVal params))
                (Some L) summaries) as [| r rs] eqn:E;
      cbn [length Nat.eqb run fst].
    + unfold Search.recentFallback.
      match goal with
      | |- context [let '(a, b) := ?p in _] => destruct p as [rs' ids']
      end.
      unfold Search.respond. cbn [Search.results]. apply slice0_le. lia.
    + unfold Search.rankedResponse, Search.respond. cbn [Search.results].
      rewrite length_map, <- E. unfold Search.ranked. apply slice0_le. lia.
  - unfold Search.catalogBaseline, Search.respond. cbn [Search.results fst].
    rewrite length_map. apply slice0_le. lia.
Qed.

(** When the call to the task service throws, the handler returns the
    response of the [catch] block: at most ten catalog entries that
    match the text under the key [query], or nothing. *)
Lemma handleSearch_backend_error
    (params : Search.SearchParams) (svc : TaskService) (message : string) :
  truthy (trim (Search.queryVal params)) = true ->
  getTaskSummaries svc Search.summaryFilter = Throws message ->
  let response := fst (run svc (handleSearch params)) in
  Search.results response =
    (if openAiToolIndexFallback
     then map Search.toolBrief
            (firstn 10
               (List.filter
                  (fun t => Search.toolCatalogMatches t (Search.searchQuery params))
                  toolCatalog))
     else []) /\
  Search.ids response = map Search.res_id (Search.results response) /\
  Search.objectIds response = Search.ids response.
Proof using Type.
  intros Hq Hsvc response. subst response.
  unfold Search.handleSearch. cbv zeta. rewrite Hq. cbn [negb run].
  rewrite Hsvc. cbn [run fst]. unfold Search.onSearchError.
  generalize (List.filter
                (fun t => Search.toolCatalogMatches t (Search.searchQuery params))
                toolCatalog) as found.
  intros found.
  destruct openAiToolIndexFallback; unfold Search.respond;
    cbn [Search.results Search.ids Search.objectIds];
    rewrite ?slice0_nonneg by lia; repeat split; reflexivity.
Qed.

(** The [catch] block reads the query the handler searched for when it
    came under the key [query]. *)
Lemma searchQuery_query (o : Search.SearchArgs) (q : string) :
  Search.arg_query o = Some q ->
  Search.searchQuery (Search.ParamObject o) =
  trim (Search.queryVal (Search.ParamObject o)).
Proof using Type.
  intros H. unfold Search.searchQuery, Search.queryVal. rewrite H.
  now destruct q.
Qed.

(** [GET /search] answers 200 with a list of results, whether the task
    service answers or throws. *)
Lemma getSearch_success (req : Request) (svc : TaskService) :
  exists items, fst (run svc (getSearch req)) = Json 200 (SearchResults items).
Proof using Type.
  unfold Server.getSearch. cbv zeta.
  match goal with
  | |- context [if ?c then _ else _] => destruct c
  end.
  - eexists. reflexivity.
  - rewrite run_bind.
    match goal with
    | |- context [run svc ?p] => destruct (run svc p) as [result calls]
    end.
    match goal with
    | |- context [if ?c then _ else _] => destruct c
    end; eexists; reflexivity.
Qed.
End Limits.

(** C2, where the limit is not enforced.  With the limit 1 and the query
    [task], the task service throwing and the tool-index fallback
    enabled, the effective limit is 1 and [handleSearch] returns 10
    results; on [GET /search] the limit [-5] stays -5 and the reply to an
    empty query has the 36 entries that [slice(0, -5)] leaves of the
    catalog. *)
Theorem limit_not_enforced
    (Transport Content : Type) (createResponse : list Search.ResultRef -> Content)
    (isNameMatch : string -> string -> MatchResult)
    (openAiToolIndexFallback : bool) (message : string) :
  let params :=
    Search.ParamObject
      {| Search.arg_query := Some "task"; Search.arg_search := None;
         Search.arg_q := None;
         Search.arg_limit := Some (Search.LimitNum (Some 1)) |} in
  let request :=
    searchRequest "/search?limit=-5"
      {| qs_q := None; qs_query := None; qs_limit := Some "-5";
         qs_top_k := None; qs_k := None; qs_n := None |} in
  (Search.effectiveLimit params = Some 1%Z /\
   length
     (Search.results
        (fst (run (unavailable message)
                (Search.handleSearch createResponse isNameMatch true params))))
   = 10%nat) /\
  (restLimit "-5" = Some (-5)%Z /\
   exists items,
     getSearch (Transport := Transport) createResponse isNameMatch
       openAiToolIndexFallback request
     = Ret (Json 200 (SearchResults items)) /\
     length items = 36%nat).
Proof.
  intros params request. split; split.
  - reflexivity.
  - vm_compute. reflexivity.
  - reflexivity.
  - eexists. split; [reflexivity | vm_compute; reflexivity].
Qed.

(** C5, where the [catch] block loses the query.  The query [zzz] comes
    under the key [q]; the handler searches for [zzz], the task service
    throws, and with the tool-index fallback enabled the results are the
    first ten entries of the catalog, although no entry of the catalog
    matches [zzz]. *)
Theorem error_path_loses_query
    (Content : Type) (createResponse : list Search.ResultRef -> Content)
    (isNameMatch : string -> string -> MatchResult) (message : string) :
  let params :=
    Search.ParamObject
      {| Search.arg_query := None; Search.arg_search := None;
         Search.arg_q := Some "zzz"; Search.arg_limit := None |} in
  trim (Search.queryVal params) = "zzz" /\
  Search.searchQuery params = "" /\
  Search.results
    (fst (run (unavailable message)
            (Search.handleSearch createResponse isNameMatch true params)))
  = map Search.toolBrief (firstn 10 toolCatalog) /\
  List.filter (fun t => Search.toolCatalogMatches t "zzz") toolCatalog = [].
Proof.
  intros params. repeat split; vm_compute; reflexivity.
Qed.

End ServerFacts.

(* ================================================================== *)
(** * Further properties of the search tool                            *)
(* ================================================================== *)

Module SearchMore.
Import JS Catalog Backend Search Spec Terms JSFacts.
Local Open Scope string_scope.
Local Open Scope Z_scope.

#[local] Arguments String.append : simpl nomatch.

(** X1.  The effective limit of [handleSearch] for a limit given as an
    integer below 10^21 in magnitude, or as the decimal numeral of such
    an integer, is that integer clamped into the range from 1 to 50;
    without a limit, and for a bare string or [undefined] as parameters,
    it is 10.  (From 10^21 on [String] prints a number in the exponent
    notation, of which [parseInt] reads the leading digit.) *)
Theorem effectiveLimit_of_integer (q s qq : option string) (n : Z) :
  Z.abs n < 10 ^ 21 ->
  let withLimit v :=
    ParamObject {| arg_query := q; arg_search := s; arg_q := qq; arg_limit := v |} in
  effectiveLimit (withLimit (Some (LimitNum (Some n))))
    = Some (Z.max 1 (Z.min n 50)) /\
  effectiveLimit (withLimit (Some (LimitStr (numberToString (Some n)))))
    = Some (Z.max 1 (Z.min n 50)) /\
  effectiveLimit (withLimit None) = Some 10 /\
  (forall text, effectiveLimit (ParamString text) = Some 10) /\
  effectiveLimit ParamUndefined = Some 10.
Proof.
  intros _ withLimit. repeat split.
  - apply SearchFacts.effectiveLimit_clamps. apply parseInt_numberToString.
  - apply SearchFacts.effectiveLimit_clamps. apply parseInt_numberToString.
Qed.

Lemma effectiveLimit_of_integer_witness :
  let withLimit v :=
    ParamObject {| arg_query := Some "invoice"; arg_search := None; arg_q := None;
                   arg_limit := v |} in
  effectiveLimit (withLimit (Some (LimitNum (Some 75))))
    = Some (Z.max 1 (Z.min 75 50)) /\
  effectiveLimit (withLimit (Some (LimitStr (numberToString (Some 75)))))
    = Some (Z.max 1 (Z.min 75 50)) /\
  effectiveLimit (withLimit None) = Some 10 /\
  (forall text, effectiveLimit (ParamString text) = Some 10) /\
  effectiveLimit ParamUndefined = Some 10.
Proof.
  apply (effectiveLimit_of_integer (Some "invoice") None None 75).
  reflexivity.
Defined.

Lemma slice0_map_ids {A B : Type} (f : A -> B) (l : list A) (e : number) :
  map f (slice0 l e) = slice0 (map f l) e.
Proof. symmetry. apply slice0_map. Qed.

Lemma In_firstn {A : Type} (x : A) (n : nat) (l : list A) :
  In x (firstn n l) -> In x l.
Proof.
  intros H. rewrite <- (firstn_skipn n l). apply in_or_app. now left.
Qed.

Lemma In_slice0 {A : Type} (x : A) (l : list A) (e : number) :
  In x (slice0 l e) -> In x l.
Proof.
  destruct e as [k |]; [| intros []]. unfold slice0.
  destruct (k <? 0); apply In_firstn.
Qed.

Section Handler.
Context {Content : Type}.
Variable createResponse : list ResultRef -> Content.
Variable isNameMatch : string -> string -> MatchResult.
Variable openAiToolIndexFallback : bool.

Abbreviation handleSearch :=
  (Search.handleSearch createResponse isNameMatch openAiToolIndexFallback).

Lemma respond_mirrors (idList : list string) (items : list SearchResultItem) :
  idList = map res_id items ->
  let response := respond createResponse idList items in
  ids response = map res_id (results response) /\
  objectIds response = ids response /\
  sc_ids (structuredContent response) = ids response /\
  sc_objectIds (structuredContent response) = ids response /\
  sc_results (structuredContent response) = results response /\
  toolResult response = results response /\
  content response = createResponse (map refOf (results response)).
Proof using Type. intros ->. repeat split. Qed.

Lemma handleSearch_mirrors_aux (params : SearchParams) (svc : TaskService) :
  let response := fst (run svc (handleSearch params)) in
  ids response = map res_id (results response) /\
  objectIds response = ids response /\
  sc_ids (structuredContent response) = ids response /\
  sc_objectIds (structuredContent response) = ids response /\
  sc_results (structuredContent response) = results response /\
  toolResult response = results response /\
  content response = createResponse (map refOf (results response)).
Proof using Type.
  unfold Search.handleSearch. cbv zeta.
  destruct (truthy (trim (queryVal params))); cbn [negb run].
  - destruct (getTaskSummaries svc summaryFilter) as [summaries | message].
    + destruct (ranked isNameMatch (trim (queryVal params))
                  (effectiveLimit params) summaries) as [| r rs];
        cbn [length Nat.eqb run fst].
      * unfold recentFallback.
        generalize (List.filter
                      (fun t => toolCatalogMatches t (trim (queryVal params)))
                      toolCatalog) as found.
        intros found.
        destruct openAiToolIndexFallback; apply respond_mirrors;
          rewrite (slice0_map_ids res_id); f_equal;
          rewrite ?map_app, !map_map; reflexivity.
      * unfold rankedResponse. apply respond_mirrors.
        rewrite map_map. reflexivity.
    + cbn [run fst]. unfold onSearchError.
      destruct openAiToolIndexFallback; apply respond_mirrors; reflexivity.
  - cbn [fst]. unfold catalogBaseline. apply respond_mirrors. reflexivity.
Qed.

(** X2.  In every branch of [handleSearch], whatever the task service
    does, the ids of the response are the ids of its results, in the
    same order, and [objectIds], [structuredContent] and [toolResult]
    repeat the ids and the results. *)
Theorem handleSearch_mirrors (params : SearchParams) (svc : TaskService) :
  let response := fst (run svc (handleSearch params)) in
  ids response = map res_id (results response) /\
  objectIds response = ids response /\
  sc_ids (structuredContent response) = ids response /\
  sc_objectIds (structuredContent response) = ids response /\
  sc_results (structuredContent response) = results response /\
  toolResult response = results response /\
  content response = createResponse (map refOf (results response)).
Proof using Type. exact (handleSearch_mirrors_aux params svc). Qed.

(** X3.  [handleSearch] asks the task service at most once: not at all
    for a query that is empty or blank, and otherwise once for the
    summaries, with the filter that includes closed tasks, archived and
    closed lists and subtasks; it never asks for a single task. *)
Theorem handleSearch_calls (params : SearchParams) (svc : TaskService) :
  snd (run svc (handleSearch params)) =
  (if truthy (trim (queryVal params)) then [CallSummaries summaryFilter] else []) /\
  include_closed summaryFilter = true /\
  include_archived_lists summaryFilter = true /\
  include_closed_lists summaryFilter = true /\
  subtasks summaryFilter = true.
Proof using Type.
  split; [| repeat split].
  unfold Search.handleSearch. cbv zeta.
  destruct (truthy (trim (queryVal params))); cbn [negb run]; [| reflexivity].
  destruct (getTaskSummaries svc summaryFilter) as [summaries | message].
  - destruct (ranked isNameMatch (trim (queryVal params))
                (effectiveLimit params) summaries); reflexivity.
  - reflexivity.
Qed.

(** X4.  When the call to the task service throws, [handleSearch]
    returns a response all the same: at most ten results, each the brief
    of a catalog entry that matches the text under the key [query], and
    none when the tool-index fallback is disabled. *)
Theorem handleSearch_survives_error
    (params : SearchParams) (svc : TaskService) (message : string) :
  truthy (trim (queryVal params)) = true ->
  getTaskSummaries svc summaryFilter = Throws message ->
  let response := fst (run svc (handleSearch params)) in
  (length (results response) <= 10)%nat /\
  Forall (fun item =>
            exists t, In t toolCatalog /\ item = toolBrief t /\
                      toolCatalogMatches t (searchQuery params) = true)
    (results response) /\
  (openAiToolIndexFallback = false -> results response = []).
Proof using Type.
  intros Hq Hsvc response.
  destruct (ServerFacts.handleSearch_backend_error createResponse isNameMatch
              openAiToolIndexFallback params svc message Hq Hsvc)
    as (Hres & _).
  fold response in Hres. rewrite Hres. clear Hres.
  remember (List.filter (fun t => toolCatalogMatches t (searchQuery params))
              toolCatalog) as found eqn:Hfound.
  destruct openAiToolIndexFallback.
  - split; [| split; [| discriminate]].
    + rewrite length_map, length_firstn. lia.
    + apply List.Forall_forall. intros item Hitem.
      apply in_map_iff in Hitem as (t & <- & Ht).
      assert (Hin : In t found) by (eapply In_firstn; exact Ht).
      rewrite Hfound in Hin. apply filter_In in Hin as [Hin Hm].
      exists t. auto.
  - split; [simpl; lia | split; [constructor | reflexivity]].
Qed.
End Handler.

(** ** The catalog text match and its tokens *)

Lemma toLowerCase_app (a b : string) :
  toLowerCase (a ++ b) = toLowerCase a ++ toLowerCase b.
Proof. induction a as [| c a IH]; simpl; [reflexivity | now rewrite IH]. Qed.

Lemma includes_self_app (x post : string) : includes (x ++ post) x = true.
Proof. exact (includes_app "" x post). Qed.

Lemma includes_refl (x : string) : includes x x = true.
Proof. rewrite <- (append_nil_r x) at 1. apply includes_self_app. Qed.

Lemma includes_skip (pre s x : string) :
  includes s x = true -> includes (pre ++ s) x = true.
Proof.
  intros H. induction pre as [| c pre IH]; simpl; [exact H |].
  cbn [includes]. rewrite IH. apply orb_true_r.
Qed.

Lemma includes_nil (s : string) : includes s "" = true.
Proof. destruct s; reflexivity. Qed.

Lemma substring_matches (tool : ToolCatalogEntry) (query : string) :
  includes (toolText tool) (toLowerCase query) = true ->
  toolCatalogMatches tool query = true.
Proof. intros H. unfold toolCatalogMatches. now rewrite H. Qed.

(** X5.  An entry matches its own id, its own name, its own title and
    its own description, and every entry matches the empty query. *)
Theorem toolCatalogMatches_own_fields (tool : ToolCatalogEntry) :
  toolCatalogMatches tool (tool_id tool) = true /\
  toolCatalogMatches tool (tool_name tool) = true /\
  toolCatalogMatches tool (tool_title tool) = true /\
  toolCatalogMatches tool (tool_description tool) = true /\
  toolCatalogMatches tool "" = true.
Proof.
  repeat split; apply substring_matches; unfold toolText;
    rewrite !toLowerCase_app.
  - apply includes_self_app.
  - do 2 apply includes_skip. apply includes_self_app.
  - do 4 apply includes_skip. apply includes_self_app.
  - do 6 apply includes_skip. apply includes_refl.
  - apply includes_nil.
Qed.

Lemma nonempty_truthy (p : string) : (0 <? String.length p)%nat = truthy p.
Proof. now destruct p. Qed.

(** X6.  The parts into which a text is split on [/], [_], [-] and white
    space are never empty and hold no separator; the empty text has no
    part, and a text without a separator is its own single part. *)
Theorem splitParts_tokens (s : string) :
  Forall (fun p => truthy p = true /\ noneOf isSeparator p = true) (splitParts s) /\
  splitParts "" = [] /\
  (truthy s = true /\ noneOf isSeparator s = true -> splitParts s = [s]).
Proof.
  split; [| split; [reflexivity |]].
  - apply List.Forall_forall. intros p Hp. unfold splitParts in Hp.
    apply filter_In in Hp as [Hp Hlen]. rewrite nonempty_truthy in Hlen.
    split; [exact Hlen |].
    pose proof (split_pieces_free isSeparator s) as Hfree.
    rewrite List.Forall_forall in Hfree. now apply Hfree.
  - intros [Ht Hfree]. unfold splitParts. rewrite (split_free _ _ Hfree).
    cbn [List.filter]. rewrite nonempty_truthy, Ht. reflexivity.
Qed.

(** X7.  A query none of whose parts has two characters or more matches
    an entry only as a substring of its text: the short parts are
    skipped and the threshold is never below 1. *)
Theorem toolCatalogMatches_short_parts (tool : ToolCatalogEntry) (query : string) :
  significant (splitParts (toLowerCase query)) = [] ->
  toolCatalogMatches tool query = includes (toolText tool) (toLowerCase query).
Proof.
  intros Hsig. unfold toolCatalogMatches.
  destruct (includes (toolText tool) (toLowerCase query)); [reflexivity |].
  rewrite SearchFacts.countMatches_hits, Hsig. cbn [List.filter length].
  apply Z.leb_gt. lia.
Qed.

Lemma toolCatalogMatches_short_parts_witness :
  toolCatalogMatches
    (mkEntry "tool:search" "search" "Search"
       "Universal retrieval: search by keywords and return top-k IDs.") "a - b"
  = includes
      (toolText
         (mkEntry "tool:search" "search" "Search"
            "Universal retrieval: search by keywords and return top-k IDs."))
      (toLowerCase "a - b").
Proof.
  exact (toolCatalogMatches_short_parts
           (mkEntry "tool:search" "search" "Search"
              "Universal retrieval: search by keywords and return top-k IDs.")
           "a - b" eq_refl).
Defined.

(** ** The theorems at the sample data *)

Lemma handleSearch_survives_error_witness :
  let response :=
    fst (run (unavailable "down")
           (Search.handleSearch Sample.sampleContent Sample.sampleMatch true
              (Sample.sampleParams "fetch" 3))) in
  (length (results response) <= 10)%nat /\
  Forall (fun item =>
            exists t, In t toolCatalog /\ item = toolBrief t /\
                      toolCatalogMatches t
                        (searchQuery (Sample.sampleParams "fetch" 3)) = true)
    (results response) /\
  (true = false -> results response = []).
Proof.
  exact (handleSearch_survives_error Sample.sampleContent Sample.sampleMatch true
           (Sample.sampleParams "fetch" 3) (unavailable "down") "down"
           eq_refl eq_refl).
Defined.

(** X8.  When the task service answers, or is not asked, the results of
    [handleSearch] are at most as many as the effective limit, which is
    at least 1 and at most 50. *)
Theorem handleSearch_results_within_limit
    {Content : Type} (createResponse : list ResultRef -> Content)
    (isNameMatch : string -> string -> MatchResult)
    (openAiToolIndexFallback : bool)
    (params : SearchParams) (svc : TaskService) (L : Z) :
  effectiveLimit params = Some L ->
  (truthy (trim (queryVal params)) = false \/
   exists summaries, getTaskSummaries svc summaryFilter = Returns summaries) ->
  let response :=
    fst (run svc (Search.handleSearch createResponse isNameMatch
                    openAiToolIndexFallback params)) in
  (length (results response) <= Z.to_nat L)%nat /\
  length (ids response) = length (results response) /\
  1 <= L <= 50.
Proof.
  intros HL H response. split; [| split].
  - now apply ServerFacts.handleSearch_within_limit.
  - destruct (handleSearch_mirrors_aux createResponse isNameMatch
                openAiToolIndexFallback params svc) as [Hids _].
    fold response in Hids. rewrite Hids. apply length_map.
  - now apply (SearchFacts.effectiveLimit_range params).
Qed.

Lemma handleSearch_results_within_limit_witness :
  let response :=
    fst (run Sample.sampleService
           (Search.handleSearch Sample.sampleContent Sample.sampleMatch true
              (Sample.sampleParams "invoice" 1))) in
  (length (results response) <= Z.to_nat 1)%nat /\
  length (ids response) = length (results response) /\
  1 <= 1 <= 50.
Proof.
  exact (handleSearch_results_within_limit Sample.sampleContent
           Sample.sampleMatch true (Sample.sampleParams "invoice" 1)
           Sample.sampleService 1 eq_refl
           (or_intror (ex_intro _ Sample.sampleSummaries eq_refl))).
Defined.

End SearchMore.

(* ================================================================== *)
(** * Further properties of the fetch tool                             *)
(* ================================================================== *)

Module FetchMore.
Import JS Catalog Backend Fetch Spec Terms JSFacts.
Local Open Scope string_scope.

#[local] Arguments String.append : simpl nomatch.

(** Every id of the catalog begins with [tool:]. *)
Lemma catalog_ids_prefixed (entry : ToolCatalogEntry) :
  In entry toolCatalog -> startsWith (tool_id entry) "tool:" = true.
Proof.
  revert entry. apply List.Forall_forall. unfold toolCatalog.
  repeat (constructor; [reflexivity |]). constructor.
Qed.

(** The line sought is the whole text, its beginning, or comes after a
    prefix. *)
Ltac find_line :=
  first [ apply SearchMore.includes_refl
        | apply SearchMore.includes_self_app
        | apply SearchMore.includes_skip; find_line ].

Section Handler.
Context {Content Failure : Type}.
Variable createResponse : DocumentCore -> Content.
Variable createErrorResponse : string -> option string -> Failure.

Abbreviation handleFetch := (Fetch.handleFetch createResponse createErrorResponse).
Abbreviation taskDocument := (Fetch.taskDocument createResponse).

Lemma fetch_catalog_entry (entry : ToolCatalogEntry) (svc : TaskService) :
  In entry toolCatalog ->
  exists d,
    run svc (handleFetch (IdObject (Some (tool_id entry)))) = (Document d, []) /\
    doc_id d = tool_id entry /\
    doc_title d = tool_title entry /\
    doc_url d = tool_url entry /\
    doc_metadata d =
      [("name", Some (tool_name entry)); ("category", Some "tool")].
Proof using Type.
  intros Hin.
  pose proof (catalog_ids_prefixed entry Hin) as Hprefix.
  assert (Htruthy : truthy (tool_id entry) = true)
    by (eapply FetchFacts.startsWith_truthy; [| exact Hprefix]; reflexivity).
  unfold Fetch.handleFetch. cbn [idOf]. rewrite Htruthy. cbv iota beta.
  rewrite Htruthy. cbn [negb]. rewrite Hprefix. cbn [run]. unfold fetchTool.
  rewrite (FetchFacts.find_catalog_entry entry Hin).
  eexists. split; [reflexivity |]. repeat split.
Qed.

(** X9.  Every result of a search with an empty or blank query can be
    fetched: [handleFetch] on its id returns, without a call to the task
    service, a document with that id, the title and the url of the
    result. *)
Theorem baseline_results_fetchable
    {Results : Type} (createResults : list Search.ResultRef -> Results)
    (isNameMatch : string -> string -> MatchResult)
    (openAiToolIndexFallback : bool)
    (params : Search.SearchParams) (svc svc' : TaskService)
    (item : Search.SearchResultItem) :
  truthy (trim (Search.queryVal params)) = false ->
  In item
    (Search.results
       (fst (run svc (Search.handleSearch createResults isNameMatch
                        openAiToolIndexFallback params)))) ->
  exists d,
    run svc' (handleFetch (IdObject (Some (Search.res_id item)))) = (Document d, []) /\
    doc_id d = Search.res_id item /\
    doc_title d = Search.res_title item /\
    doc_url d = Search.res_url item.
Proof using Type.
  intros Hq Hin. unfold Search.handleSearch in Hin. cbv zeta in Hin.
  rewrite Hq in Hin. cbn [negb run fst] in Hin.
  unfold Search.catalogBaseline, Search.respond in Hin.
  cbn [Search.results] in Hin.
  apply in_map_iff in Hin as (entry & <- & Hentry).
  apply SearchMore.In_slice0 in Hentry.
  destruct (fetch_catalog_entry entry svc' Hentry) as (d & Hrun & Hid & Ht & Hu & _).
  exists d. cbn [Search.toolBrief Search.res_id Search.res_title Search.res_url].
  auto.
Qed.

(** X10.  Without an id ([undefined], an object without [id], an empty
    [id] or an empty string) [handleFetch] returns the error response
    [Missing required parameter: id] and makes no call to the task
    service. *)
Theorem handleFetch_missing_id (svc : TaskService) :
  let missing :=
    (Failed (createErrorResponse "Missing required parameter: id" None), []) in
  run svc (handleFetch IdUndefined) = missing /\
  run svc (handleFetch (IdObject None)) = missing /\
  run svc (handleFetch (IdObject (Some ""))) = missing /\
  run svc (handleFetch (IdString "")) = missing.
Proof using Type. repeat split. Qed.

(** X11.  When the call to the task service throws, [handleFetch]
    returns the error response [Fetch failed] with the message of the
    error, after that one call. *)
Theorem handleFetch_backend_error
    (params : FetchParams) (id : string) (svc : TaskService) (message : string) :
  idOf params = Some id ->
  truthy id = true ->
  startsWith id "tool:" = false ->
  getTask svc id = Throws message ->
  run svc (handleFetch params) =
  (Failed (createErrorResponse "Fetch failed" (Some message)), [CallTask id]).
Proof using Type.
  intros Hid Ht Htool Hsvc. unfold Fetch.handleFetch.
  rewrite Hid, Ht, Htool. cbn [negb run]. now rewrite Hsvc.
Qed.

(** X12.  The text of the document of a task is empty exactly when its
    description or body, its status, its list name and its url are all
    empty; a task without a status has the line [Status: unknown]. *)
Theorem taskDocument_text_empty (task : Task) :
  (isEmpty (doc_text (taskDocument task)) = blankTask task) /\
  (task_status task = None ->
   includes (doc_text (taskDocument task)) "Status: unknown" = true).
Proof using Type.
  unfold Fetch.taskDocument, document, blankTask, bodyOf, statusOf, listOf, urlOf.
  cbn [doc_text core_text].
  destruct task as [tid tname tstatus tlist turl tbody tdesc].
  cbn [task_status task_list_name task_url task_text_content task_description].
  split.
  - destruct tbody as [[| ? ?] |]; destruct tdesc as [[| ? ?] |];
      destruct tstatus as [[| ? ?] |]; destruct tlist as [[| ? ?] |];
      destruct turl as [[| ? ?] |]; reflexivity.
  - intros ->.
    destruct tbody as [[| a body] |]; destruct tdesc as [[| b desc] |];
      destruct tlist as [[| c l] |]; destruct turl as [[| e u] |];
      cbn [default from_option id orStr truthy isEmpty negb pushIf app join];
      find_line.
Qed.
End Handler.

(** ** The theorems at the sample data *)

Lemma baseline_results_fetchable_witness :
  let item :=
    Search.toolBrief
      (mkEntry "tool:search" "search" "Search"
         "Universal retrieval: search by keywords and return top-k IDs.") in
  exists d,
    run (unavailable "down")
      (Fetch.handleFetch Sample.sampleDocument Sample.sampleError
         (IdObject (Some (Search.res_id item))))
    = (Document d, []) /\
    doc_id d = Search.res_id item /\
    doc_title d = Search.res_title item /\
    doc_url d = Search.res_url item.
Proof.
  apply (baseline_results_fetchable Sample.sampleDocument Sample.sampleError
           Sample.sampleContent Sample.sampleMatch true
           (Sample.sampleParams "  " 3) Sample.sampleService (unavailable "down")).
  - reflexivity.
  - left. reflexivity.
Defined.

Lemma handleFetch_backend_error_witness :
  run Sample.sampleService
    (Fetch.handleFetch Sample.sampleDocument Sample.sampleError (IdString "t2"))
  = (Failed (Sample.sampleError "Fetch failed" (Some "Task not found")),
     [CallTask "t2"]).
Proof.
  exact (handleFetch_backend_error Sample.sampleDocument Sample.sampleError
           (IdString "t2") "t2" Sample.sampleService "Task not found"
           eq_refl eq_refl eq_refl eq_refl).
Defined.

End FetchMore.

(* ================================================================== *)
(** * Further properties of the transport server                       *)
(* ================================================================== *)

Module ServerMore.
Import JS Catalog Backend Server Legacy Spec Terms JSFacts.
Local Open Scope string_scope.
Local Open Scope Z_scope.

(** ** The limit of the REST routes *)

(** X13.  The limit of the REST search routes is always a number, never
    0 and never above 50: the number read from the text, capped at 50,
    or 10 when the text has no number or reads 0.  It has no lower
    bound: a negative number is kept. *)
Theorem restLimit_bounds (rawLimit : string) :
  exists L,
    restLimit rawLimit = Some L /\ L <= 50 /\ L <> 0 /\
    (parseIntAuto rawLimit = None \/ parseIntAuto rawLimit = Some 0 -> L = 10) /\
    (forall n, parseIntAuto rawLimit = Some n -> n <> 0 -> L = Z.min n 50).
Proof.
  unfold restLimit, orNum, truthyNum.
  destruct (parseIntAuto rawLimit) as [n |].
  - destruct (Z.eqb_spec n 0) as [-> | Hn]; cbn [negb mathMin].
    + exists 10. repeat split; try lia. intros n Hn. injection Hn as <-. lia.
    + exists (Z.min n 50). repeat split; try lia.
      * intros [H | H]; [discriminate | injection H as ->; lia].
      * intros m Hm _. now injection Hm as <-.
  - exists 10. cbn [mathMin]. repeat split; try lia. discriminate.
Qed.

Lemma run_bind_fst {A B : Type} (svc : TaskService) (p : Prog A) (f : A -> Prog B) :
  fst (run svc (bind p f)) = fst (run svc (f (fst (run svc p)))).
Proof.
  rewrite ServerFacts.run_bind.
  destruct (run svc p) as [a calls]. cbn [fst].
  now destruct (run svc (f a)).
Qed.

#[local] Opaque toolCatalog.

Lemma catalog_slice_nonempty (L : Z) :
  1 <= L -> map catalogItem (slice0 toolCatalog (Some L)) <> [].
Proof.
  intros HL Hnil. apply map_eq_nil in Hnil.
  pose proof (slice0_length toolCatalog L ltac:(lia)) as Hlen.
  rewrite Hnil, SearchFacts.toolCatalog_length in Hlen. cbn [length] in Hlen. lia.
Qed.

Section Routes.
Context {Transport Content Failure : Type}.
Variable createResponse : list Search.ResultRef -> Content.
Variable createDocument : Fetch.DocumentCore -> Content.
Variable createErrorResponse : string -> option string -> Failure.
Variable isNameMatch : string -> string -> MatchResult.
Variable openAiToolIndexFallback : bool.

Abbreviation getSearch :=
  (Server.getSearch (Transport := Transport) createResponse isNameMatch
     openAiToolIndexFallback).
Abbreviation handleSessionRequest :=
  (Server.handleSessionRequest (Transport := Transport) createResponse
     createDocument createErrorResponse isNameMatch openAiToolIndexFallback).

(** X14.  With a limit of 1 or more, [GET /search] answers 200 with a
    list of results that is never empty, whatever the query and whatever
    the task service does: an empty result of the search is replaced by
    the first entries of the catalog. *)
Theorem getSearch_never_empty (req : Request) (svc : TaskService) (L : Z) :
  searchLimit (query req) = Some L ->
  1 <= L ->
  exists items,
    fst (run svc (getSearch req)) = Json 200 (SearchResults items) /\
    items <> [].
Proof using Type.
  intros HL Hpos. unfold searchLimit in HL.
  unfold Server.getSearch. cbv zeta. rewrite HL.
  match goal with
  | |- context [if ?c then _ else _] => destruct c
  end.
  - eexists. split; [reflexivity |]. now apply catalog_slice_nonempty.
  - rewrite run_bind_fst.
    destruct (Search.results
                (fst (run svc (callSearch createResponse isNameMatch
                                 openAiToolIndexFallback _ (Some L)))))
      as [| r rs] eqn:E; cbn [map length Nat.eqb].
    + destruct (map looseOfRest (map catalogItem (slice0 toolCatalog (Some L))))
        as [| x xs] eqn:Ex.
      * apply map_eq_nil in Ex. now apply catalog_slice_nonempty in Ex.
      * cbn [length Nat.ltb Nat.leb run fst]. eexists. split; [reflexivity |].
        discriminate.
    + cbn [Nat.ltb Nat.leb run fst]. eexists. split; [reflexivity |].
      discriminate.
Qed.
End Routes.

(** ** The session tables *)

Section Sessions.
Context {Transport Content Failure : Type}.
Variable createResponse : list Search.ResultRef -> Content.
Variable createDocument : Fetch.DocumentCore -> Content.
Variable createErrorResponse : string -> option string -> Failure.
Variable isNameMatch : string -> string -> MatchResult.
Variable openAiToolIndexFallback : bool.

Abbreviation handleSessionRequest :=
  (Server.handleSessionRequest (Transport := Transport) createResponse
     createDocument createErrorResponse isNameMatch openAiToolIndexFallback).

Lemma getMember_insert_ne (table : gmap string Transport) (sid other : string)
    (t : Transport) :
  other <> sid -> getMember (<[sid := t]> table) other = getMember table other.
Proof using Type.
  intros Hne. unfold getMember. now rewrite lookup_insert_ne by congruence.
Qed.

Lemma getMember_delete_ne (table : gmap string Transport) (sid other : string) :
  other <> sid -> getMember (delete sid table) other = getMember table other.
Proof using Type.
  intros Hne. unfold getMember. now rewrite lookup_delete_ne by congruence.
Qed.

Lemma postMcp_depends_on_member (a b : gmap string Transport) (req : Request)
    (sid : string) :
  mcp_session_id req = Some sid ->
  getMember a sid = getMember b sid ->
  postMcp a req = postMcp b req.
Proof using Type.
  intros Hsid Hmem. unfold postMcp. rewrite Hsid.
  destruct (truthy sid); [now rewrite Hmem | reflexivity].
Qed.

(** X15.  The table of the streamable sessions through the life of a
    session: once the session [sid] is initialised a [POST /mcp] with
    that id is handed to its transport; once it is closed the same
    request is rejected with 400 and the code -32000, no session being
    opened in its place; and neither event changes the reply to a
    request with another session id. *)
Theorem postMcp_session_lifecycle
    (streamable : gmap string Transport) (sid : string) (t : Transport)
    (req : Request) :
  mcp_session_id req = Some sid ->
  truthy sid = true ->
  ~ In sid objectPrototype ->
  postMcp (sessionInitialized sid t streamable) req = HandleRequest t /\
  postMcp (sessionClosed (Some sid) (sessionInitialized sid t streamable)) req =
    Json 400 (RpcError (-32000) "Bad Request: No valid session ID provided") /\
  (forall other req',
     other <> sid -> mcp_session_id req' = Some other ->
     postMcp (sessionInitialized sid t streamable) req' = postMcp streamable req' /\
     postMcp (sessionClosed (Some sid) streamable) req' = postMcp streamable req').
Proof using Type.
  intros Hsid Ht Hproto. split; [| split].
  - now apply (ServerFacts.postMcp_after_initialize _ _ sid).
  - now apply (ServerFacts.postMcp_after_close _ _ sid).
  - intros other req' Hne Hother. split.
    + apply (postMcp_depends_on_member _ _ _ other Hother).
      now apply getMember_insert_ne.
    + apply (postMcp_depends_on_member _ _ _ other Hother).
      unfold sessionClosed. rewrite Ht. now apply getMember_delete_ne.
Qed.

(** X16.  A [GET] or [DELETE] on [/mcp] that is not a forwarded alias
    makes no call to the task service and never opens a session: it is
    handed to the transport stored under its session id, and answered
    with 400 and the code -32000 when the id is missing, empty or not
    stored (the id not being the name of a member of
    [Object.prototype]). *)
Theorem handleSessionRequest_outcomes
    (streamable : gmap string Transport) (req : Request) (svc : TaskService) :
  yieldsSearch req = false ->
  yieldsFetch req = false ->
  (forall sid, mcp_session_id req = Some sid -> ~ In sid objectPrototype) ->
  run svc (handleSessionRequest streamable req) =
  (match mcp_session_id req with
   | Some sid =>
       match (if truthy sid then streamable !! sid else None) with
       | Some t => HandleRequest t
       | None =>
           Json 400
             (RpcError (-32000) "Bad Request: Mcp-Session-Id header is required")
       end
   | None =>
       Json 400 (RpcError (-32000) "Bad Request: Mcp-Session-Id header is required")
   end, []).
Proof using Type.
  intros Hs Hf Hproto. unfold Server.handleSessionRequest. rewrite Hs, Hf.
  destruct (mcp_session_id req) as [sid |] eqn:Hsid; [| reflexivity].
  destruct (truthy sid); [| reflexivity].
  destruct (streamable !! sid) as [t |] eqn:Hget.
  - now rewrite (ServerFacts.getMember_stored _ _ _ Hget).
  - now rewrite (ServerFacts.getMember_unknown _ _ Hget (Hproto sid eq_refl)).
Qed.

(** ** The forwarded aliases *)

Lemma endsWith_includes (s x : string) :
  endsWith s x = true -> includes s x = true.
Proof using Type.
  induction s as [| c s IH]; cbn [endsWith includes].
  - rewrite orb_false_r. intros H. apply String.eqb_eq in H. subst x. reflexivity.
  - intros H. apply orb_prop in H as [H | H].
    + apply String.eqb_eq in H. subst x.
      change (includes (String c s) (String c s) = true).
      apply SearchMore.includes_refl.
    + rewrite (IH H). apply orb_true_r.
Qed.

Lemma alias_test (p alias : string) :
  truthy alias = true ->
  truthy p && (endsWith p alias || includes p alias) = includes p alias.
Proof using Type.
  intros Halias.
  destruct (includes p alias) eqn:E.
  - rewrite orb_true_r, andb_true_r.
    destruct p; [| reflexivity]. destruct alias; discriminate.
  - destruct (endsWith p alias) eqn:E'.
    + apply endsWith_includes in E'. congruence.
    + apply andb_false_r.
Qed.

(** X17.  The path recovered by [handleSessionRequest] is the first
    value that is present and not empty among the headers
    [x-original-uri], [x-rewrite-url], [x-forwarded-uri],
    [x-forwarded-url] and the original URL, the URL and the path of the
    request; the request is served as a search exactly when that path
    includes [/mcp/search] anywhere, and as a fetch exactly when it
    includes [/mcp/fetch] and not [/mcp/search]. *)
Theorem forwarded_alias_detection (streamable : gmap string Transport) (req : Request) :
  effectivePath req =
    firstTruthy
      [ x_original_uri req; x_rewrite_url req; x_forwarded_uri req;
        x_forwarded_url req; Some (originalUrl req); Some (url req);
        Some (path req) ] /\
  yieldsSearch req = includes (effectivePath req) "/mcp/search" /\
  yieldsFetch req = includes (effectivePath req) "/mcp/fetch" /\
  (includes (effectivePath req) "/mcp/search" = true ->
   handleSessionRequest streamable req =
   forwardedSearch createResponse isNameMatch openAiToolIndexFallback req) /\
  (includes (effectivePath req) "/mcp/search" = false ->
   includes (effectivePath req) "/mcp/fetch" = true ->
   handleSessionRequest streamable req =
   forwardedFetch createDocument createErrorResponse req).
Proof using Type.
  assert (Hs : yieldsSearch req = includes (effectivePath req) "/mcp/search")
    by (unfold yieldsSearch; now apply alias_test).
  assert (Hf : yieldsFetch req = includes (effectivePath req) "/mcp/fetch")
    by (unfold yieldsFetch; now apply alias_test).
  split; [| split; [exact Hs | split; [exact Hf | split]]].
  - unfold effectivePath.
    destruct (x_original_uri req) as [[| ? ?] |];
      destruct (x_rewrite_url req) as [[| ? ?] |];
      destruct (x_forwarded_uri req) as [[| ? ?] |];
      destruct (x_forwarded_url req) as [[| ? ?] |];
      destruct (originalUrl req) as [| ? ?];
      destruct (url req) as [| ? ?];
      destruct (path req) as [| ? ?]; reflexivity.
  - intros H. unfold Server.handleSessionRequest. now rewrite Hs, H.
  - intros H H'. unfold Server.handleSessionRequest. now rewrite Hs, H, Hf, H'.
Qed.

(** X18.  A forwarded [/mcp/fetch] for the id of a task is answered
    from the task service alone, whatever the session table holds: 200
    with the id of the task, the text of its document and the metadata
    title, url, status and list when the task is returned, and 404
    [Document not found] when the call throws. *)
Theorem forwarded_fetch_reply
    (streamable : gmap string Transport) (req : Request) (svc : TaskService)
    (id : string) :
  yieldsSearch req = false ->
  yieldsFetch req = true ->
  query_id req = Some id ->
  truthy id = true ->
  startsWith id "tool:" = false ->
  run svc (handleSessionRequest streamable req) =
  (match getTask svc id with
   | Returns task =>
       Json 200
         (FetchedDocument (task_id task)
            (Fetch.doc_text (Fetch.taskDocument createDocument task))
            [("title", Some (task_name task)); ("url", Some (urlOf task));
             ("status", Some (statusOf task));
             ("list", if truthy (listOf task) then Some (listOf task) else None)])
   | Throws _ => Json 404 (PlainError "Document not found")
   end, [CallTask id]).
Proof using Type.
  intros Hs Hf Hid Ht Htool. unfold Server.handleSessionRequest.
  rewrite Hs, Hf. unfold forwardedFetch. rewrite Hid, Ht. cbn [negb].
  rewrite ServerFacts.run_bind. unfold Fetch.handleFetch. cbn [Fetch.idOf].
  rewrite Ht. cbv iota beta. rewrite Ht, Htool. cbn [negb run].
  destruct (getTask svc id) as [task | message]; cbn [run app]; [| reflexivity].
  unfold Fetch.taskDocument, Fetch.document, urlOf, statusOf, listOf.
  cbn [Fetch.doc_id Fetch.doc_text Fetch.doc_title Fetch.doc_url
       Fetch.doc_metadata Fetch.core_id Fetch.core_title Fetch.core_text
       Fetch.core_url Fetch.core_metadata app].
  destruct (task_url task) as [[| ? ?] |]; reflexivity.
Qed.

(** X19.  The table of the legacy SSE sessions through the life of a
    connection: once [GET /sse] has stored the transport of the session
    [sid], a [POST /messages] with that id is handed to it; once the
    connection is closed the same request is answered with 400
    [No transport found for sessionId]; and neither event changes the
    outcome for another session id. *)
Theorem postMessages_lifecycle
    (sse : gmap string Transport) (sid : string) (t : Transport)
    (origin : option string) :
  ~ In sid objectPrototype ->
  snd (postMessages (sseOpened sid t sse) origin (Some sid)) = HandlePostMessage t /\
  snd (postMessages (sseClosed sid (sseOpened sid t sse)) origin (Some sid)) =
    SendText 400 "No transport found for sessionId" /\
  (forall other,
     other <> sid ->
     postMessages (sseOpened sid t sse) origin (Some other) =
       postMessages sse origin (Some other) /\
     postMessages (sseClosed sid sse) origin (Some other) =
       postMessages sse origin (Some other)).
Proof using Type.
  intros Hproto. unfold postMessages, sseOpened, sseClosed. cbn [snd default].
  split; [| split].
  - change (from_option id "undefined" (Some sid)) with sid.
    now rewrite (ServerFacts.getMember_stored _ sid t) by apply lookup_insert_eq.
  - change (from_option id "undefined" (Some sid)) with sid.
    now rewrite (ServerFacts.getMember_unknown _ sid) by
      (try apply lookup_delete_eq; exact Hproto).
  - intros other Hne.
    change (from_option id "undefined" (Some other)) with other.
    now rewrite getMember_insert_ne, getMember_delete_ne.
Qed.
End Sessions.

(** ** The Accept normalisation, part by part *)

Lemma dedupe_app_fresh (l seen : list string) (x : string) :
  ~ In x l -> ~ In x seen -> dedupe seen (l ++ [x]) = (dedupe seen l ++ [x])%list.
Proof.
  revert seen. induction l as [| y l IH]; intros seen Hl Hseen.
  - cbn [app dedupe].
    destruct (existsb (String.eqb x) seen) eqn:E; [| reflexivity].
    apply existsb_exists in E as (z & Hz & Heq).
    apply String.eqb_eq in Heq. subst z. contradiction.
  - cbn [app dedupe].
    destruct (existsb (String.eqb y) seen).
    + apply IH; [| exact Hseen]. intros H. apply Hl. now right.
    + cbn [app]. f_equal. apply IH.
      * intros H. apply Hl. now right.
      * intros [-> | H]; [apply Hl; now left | contradiction].
Qed.

Lemma absent_part (x : string) (parts : list string) :
  existsb (fun p => includes p x) parts = false -> ~ In x parts.
Proof.
  intros H Hin. apply Bool.not_true_iff_false in H. apply H.
  apply existsb_exists. exists x. split; [exact Hin | apply SearchMore.includes_refl].
Qed.

(** X20.  On [/mcp] the Accept normalisation leaves a header that has
    both media types as it is, duplicates included; otherwise the new
    header is the distinct parts of the old one, in their order, joined
    by a comma and a blank, followed by [application/json] and
    [text/event-stream], whichever were missing, in that order. *)
Theorem normalizeAccept_appends (accept : option string) :
  normalizeAccept "/mcp" accept =
  match missingTypes (acceptTokens accept) with
  | [] => accept
  | added => Some (join ", " (dedupe [] (acceptTokens accept) ++ added))
  end.
Proof.
  rewrite (ServerFacts.normalizeAccept_mcp accept). cbv zeta.
  unfold missingTypes.
  set (parts := acceptTokens accept).
  destruct (existsb (fun p => includes p "application/json") parts) eqn:Ej;
    cbv iota; cbn [andb].
  - destruct (existsb (fun p => includes p "text/event-stream") parts) eqn:Es;
      cbv iota; cbn [app]; [reflexivity |].
    rewrite dedupe_app_fresh; [reflexivity | now apply absent_part | intros []].
  - rewrite existsb_app.
    change (existsb (fun p => includes p "text/event-stream") ["application/json"])
      with false.
    rewrite orb_false_r.
    destruct (existsb (fun p => includes p "text/event-stream") parts) eqn:Es;
      cbv iota; cbn [app].
    + rewrite dedupe_app_fresh; [reflexivity | now apply absent_part | intros []].
    + rewrite !dedupe_app_fresh.
      * now rewrite <- app_assoc.
      * now apply absent_part.
      * intros [].
      * intros H. apply in_app_or in H as [H | [H | []]];
          [now apply (absent_part _ _ Es) | discriminate].
      * intros [].
Qed.

(** ** The ChatGPT fetch route *)

Section Chat.
Context {Content Failure : Type}.
Variable createDocument : Fetch.DocumentCore -> Content.
Variable createErrorResponse : string -> option string -> Failure.

Abbreviation chatgptFetch :=
  (Legacy.chatgptFetch createDocument createErrorResponse).

(** X21.  [GET /chatgpt/fetch] labels what it returns by the id alone:
    a document of an id that begins with [tool:] has the source
    [tool_catalog] and the category [tool], every other document the
    source [clickup] and the category [document]; a fetch that fails is
    answered with 404 and a message that names the id, and a missing or
    empty id with 400, without a call to the task service. *)
Theorem chatgptFetch_labels (id : string) (svc : TaskService) :
  truthy id = true ->
  match fst (run svc (chatgptFetch (Some id))) with
  | ChatDocument _ _ metadata =>
      getKey "source" metadata =
        Some (if startsWith id "tool:" then "tool_catalog" else "clickup") /\
      getKey "category" metadata =
        Some (if startsWith id "tool:" then "tool" else "document")
  | ChatError status error message =>
      status = 404 /\ error = "Not Found" /\
      message = "Document with id '" ++ id ++ "' not found"
  end /\
  run svc (chatgptFetch None) =
    (ChatError 400 "Bad Request" "Missing required parameter: id", []) /\
  run svc (chatgptFetch (Some "")) =
    (ChatError 400 "Bad Request" "Missing required parameter: id", []).
Proof using Type.
  intros Ht. split; [| split; reflexivity].
  unfold Legacy.chatgptFetch.
  assert (Hid : default "" (orStr (Some id) (Some "")) = id)
    by (cbn [orStr]; now rewrite Ht).
  rewrite Hid, Ht. cbn [negb]. rewrite run_bind_fst.
  unfold Fetch.handleFetch. cbn [Fetch.idOf]. rewrite Ht. cbv iota beta.
  rewrite Ht. cbn [negb].
  destruct (startsWith id "tool:") eqn:Htool.
  - cbn [run fst]. unfold Fetch.fetchTool.
    destruct (List.find (fun e => String.eqb (tool_id e) id) toolCatalog);
      cbn [run fst]; repeat split.
  - cbn [run]. destruct (getTask svc id) as [task | message];
      cbn [run fst]; repeat split.
Qed.
End Chat.

(** ** The theorems at the sample data *)

Lemma getSearch_never_empty_witness :
  exists items,
    fst (run (unavailable "down")
           (Server.getSearch (Transport := nat) Sample.sampleContent
              Sample.sampleMatch false
              (searchRequest "/search?q=zzz"
                 {| qs_q := Some "zzz"; qs_query := None; qs_limit := None;
                    qs_top_k := None; qs_k := None; qs_n := None |})))
    = Json 200 (SearchResults items) /\
    items <> [].
Proof.
  apply (getSearch_never_empty (Transport := nat) Sample.sampleContent
           Sample.sampleMatch false _ (unavailable "down") 10).
  - reflexivity.
  - lia.
Defined.

Lemma sample_id_not_inherited : ~ In "session_1_abc" objectPrototype.
Proof. cbv. intuition discriminate. Defined.

Lemma postMcp_session_lifecycle_witness :
  let sid := "session_1_abc" in
  let req := mcpRequest (Some sid) in
  postMcp (sessionInitialized sid 7%nat ∅) req = HandleRequest 7%nat /\
  postMcp (sessionClosed (Some sid) (sessionInitialized sid 7%nat ∅)) req =
    Json 400 (RpcError (-32000) "Bad Request: No valid session ID provided") /\
  (forall other req',
     other <> sid -> mcp_session_id req' = Some other ->
     postMcp (sessionInitialized sid 7%nat ∅) req' = postMcp (Transport := nat) ∅ req' /\
     postMcp (sessionClosed (Some sid) ∅) req' = postMcp (Transport := nat) ∅ req').
Proof.
  exact (postMcp_session_lifecycle (Transport := nat) ∅ "session_1_abc" 7%nat
           (mcpRequest (Some "session_1_abc")) eq_refl eq_refl
           sample_id_not_inherited).
Defined.

Lemma handleSessionRequest_outcomes_witness :
  run Sample.sampleService
    (Server.handleSessionRequest (Transport := nat) Sample.sampleContent
       Sample.sampleDocument Sample.sampleError Sample.sampleMatch true
       (<["session_1_abc" := 7%nat]> ∅) (mcpRequest (Some "session_1_abc")))
  = (match (<["session_1_abc" := 7%nat]> ∅ : gmap string nat) !! "session_1_abc" with
     | Some t => HandleRequest t
     | None =>
         Json 400
           (RpcError (-32000) "Bad Request: Mcp-Session-Id header is required")
     end, []).
Proof.
  apply (handleSessionRequest_outcomes (Transport := nat) Sample.sampleContent
           Sample.sampleDocument Sample.sampleError Sample.sampleMatch true
           (<["session_1_abc" := 7%nat]> ∅) (mcpRequest (Some "session_1_abc"))
           Sample.sampleService).
  - reflexivity.
  - reflexivity.
  - intros sid H. injection H as <-. exact sample_id_not_inherited.
Defined.

Lemma forwarded_fetch_reply_witness :
  run Sample.sampleService
    (Server.handleSessionRequest (Transport := nat) Sample.sampleContent
       Sample.sampleDocument Sample.sampleError Sample.sampleMatch true
       ∅ (forwardedRequest "/mcp/fetch?id=t1" (Some "t1")))
  = (match getTask Sample.sampleService "t1" with
     | Returns task =>
         Json 200
           (FetchedDocument (task_id task)
              (Fetch.doc_text (Fetch.taskDocument Sample.sampleDocument task))
              [("title", Some (task_name task)); ("url", Some (urlOf task));
               ("status", Some (statusOf task));
               ("list", if truthy (listOf task) then Some (listOf task) else None)])
     | Throws _ => Json 404 (PlainError "Document not found")
     end, [CallTask "t1"]).
Proof.
  exact (forwarded_fetch_reply (Transport := nat) Sample.sampleContent
           Sample.sampleDocument Sample.sampleError Sample.sampleMatch true
           ∅ (forwardedRequest "/mcp/fetch?id=t1" (Some "t1"))
           Sample.sampleService "t1" eq_refl eq_refl eq_refl eq_refl eq_refl).
Defined.

Lemma postMessages_lifecycle_witness :
  let sid := "session_1_abc" in
  snd (postMessages (sseOpened sid 7%nat ∅) None (Some sid)) = HandlePostMessage 7%nat /\
  snd (postMessages (sseClosed sid (sseOpened sid 7%nat ∅)) None (Some sid)) =
    SendText 400 "No transport found for sessionId" /\
  (forall other,
     other <> sid ->
     postMessages (sseOpened sid 7%nat ∅) None (Some other) =
       postMessages (Transport := nat) ∅ None (Some other) /\
     postMessages (sseClosed sid ∅) None (Some other) =
       postMessages (Transport := nat) ∅ None (Some other)).
Proof.
  exact (postMessages_lifecycle (Transport := nat) ∅ "session_1_abc" 7%nat None
           sample_id_not_inherited).
Defined.

Lemma chatgptFetch_labels_witness :
  match fst (run (unavailable "down")
               (Legacy.chatgptFetch Sample.sampleDocument Sample.sampleError
                  (Some "tool:search"))) with
  | ChatDocument _ _ metadata =>
      getKey "source" metadata =
        Some (if startsWith "tool:search" "tool:" then "tool_catalog" else "clickup") /\
      getKey "category" metadata =
        Some (if startsWith "tool:search" "tool:" then "tool" else "document")
  | ChatError status error message =>
      status = 404 /\ error = "Not Found" /\
      message = "Document with id '" ++ "tool:search" ++ "' not found"
  end /\
  run (unavailable "down")
    (Legacy.chatgptFetch Sample.sampleDocument Sample.sampleError None) =
    (ChatError 400 "Bad Request" "Missing required parameter: id", []) /\
  run (unavailable "down")
    (Legacy.chatgptFetch Sample.sampleDocument Sample.sampleError (Some "")) =
    (ChatError 400 "Bad Request" "Missing required parameter: id", []).
Proof.
  exact (chatgptFetch_labels Sample.sampleDocument Sample.sampleError
           "tool:search" (unavailable "down") eq_refl).
Defined.

End ServerMore.
